(** * custom-clock.py: a cookbook clock for oatbar

    A shallow embedding of [book/src/configuration/cookbook/custom-clock.py]
    and the properties of its loop.

    The script is a sequence of calls into the Python runtime and pycairo
    inside [while True:].  It is embedded as an interaction tree over one
    event per external call; the calls get their meaning from a handler on
    an explicit world (clock, object store, file system, standard output),
    and a fuelled runner observes finite prefixes of the infinite run. *)

From Stdlib Require Import List String Ascii ZArith QArith Arith Lia Bool.
From Stdlib Require Strings.Byte.
From ITree Require Import ITree.
Import ListNotations.
Import ITreeNotations.

Local Open Scope string_scope.
Local Open Scope itree_scope.
Local Open Scope nat_scope.

Set Implicit Arguments.

(* ===================================================================== *)
(** * Python runtime: strings of numbers and of date-times *)
(* ===================================================================== *)

Module Py.

(** The exceptions an external call can raise. *)
Inductive exn : Type :=
| MemoryError
| CairoError (status : string)
| OSError (errno : Z)
| TypeError
| ValueError
| KeyboardInterrupt.

(** A naive [datetime.datetime] (its [tzinfo] is [None]), as
    [datetime.datetime.now()] without argument returns it. *)
Record datetime : Type := mk_datetime {
  year : Z;
  month : Z;
  day : Z;
  hour : Z;
  minute : Z;
  second : Z;
  microsecond : Z
}.

(** The ranges the [datetime] constructor enforces. *)
Definition valid_datetime (d : datetime) : Prop :=
  (1 <= year d <= 9999 /\ 1 <= month d <= 12 /\ 1 <= day d <= 31 /\
   0 <= hour d < 24 /\ 0 <= minute d < 60 /\ 0 <= second d < 60 /\
   0 <= microsecond d < 1000000)%Z.

Definition digit_char (d : Z) : ascii := ascii_of_nat (48 + Z.to_nat d).

(** [str(n)] for a non-negative integer: its decimal digits, most
    significant first and without leading zeros. *)
Fixpoint decimal_aux (fuel : nat) (n : Z) (acc : string) : string :=
  match fuel with
  | O => acc
  | S fuel' =>
      let acc' := String (digit_char (n mod 10)) acc in
      if (n / 10 =? 0)%Z then acc' else decimal_aux fuel' (n / 10) acc'
  end.

Definition decimal (n : Z) : string :=
  decimal_aux (S (Z.to_nat (Z.log2 n))) n "".

Fixpoint zeros (k : nat) : string :=
  match k with
  | O => ""
  | S k' => String "0" (zeros k')
  end.

(** ["%0<width>d" % n]: zero-padded on the left to at least [width]. *)
Definition format_0d (width : nat) (n : Z) : string :=
  let s := decimal n in zeros (width - String.length s) ++ s.

(** [datetime._format_time] with [timespec='auto']: the microseconds
    are printed only when they are not zero. *)
Definition format_time (hh mm ss us : Z) : string :=
  format_0d 2 hh ++ ":" ++ format_0d 2 mm ++ ":" ++ format_0d 2 ss ++
  (if (us =? 0)%Z then "" else "." ++ format_0d 6 us).

(** [datetime.isoformat(sep)] of a naive date-time (no offset suffix). *)
Definition isoformat (sep : ascii) (d : datetime) : string :=
  format_0d 4 (year d) ++ "-" ++ format_0d 2 (month d) ++ "-" ++
  format_0d 2 (day d) ++ String sep
    (format_time (hour d) (minute d) (second d) (microsecond d)).

(** [datetime.__str__] is [isoformat(sep=' ')]. *)
Definition str_datetime (d : datetime) : string := isoformat " " d.

(** [fmt % arg] for a format with [%s] conversions and one argument that
    is already a string: the first [%s] is replaced by [arg]. *)
Fixpoint percent (fmt arg : string) : string :=
  match fmt with
  | EmptyString => EmptyString
  | String "%" (String "s" rest) => arg ++ rest
  | String c rest => String c (percent rest arg)
  end.

End Py.

(* ===================================================================== *)
(** * pycairo: surfaces and drawing contexts *)
(* ===================================================================== *)

Module Cairo.

Inductive Format : Type := ARGB32 | RGB24 | A8 | A1 | RGB16_565 | RGB30.

Inductive FontSlant : Type :=
  FONT_SLANT_NORMAL | FONT_SLANT_ITALIC | FONT_SLANT_OBLIQUE.

Inductive FontWeight : Type := FONT_WEIGHT_NORMAL | FONT_WEIGHT_BOLD.

(** An image surface: one 32-bit word per pixel, row after row. *)
Record Surface : Type := mk_surface {
  format : Format;
  width : Z;
  height : Z;
  data : list Z
}.

(** A drawing context; [target] is the reference of the surface it draws
    on, so that drawing through the context is seen through the surface. *)
Record Ctx : Type := mk_ctx {
  target : nat;
  font_size : Q;
  font_family : string;
  font_slant : FontSlant;
  font_weight : FontWeight;
  current_point : option (Q * Q);
  source : Q * Q * Q * Q
}.

(** [cairo_image_surface_create]: the contents are set to zero, which is
    transparent for ARGB32. *)
Definition blank (w h : Z) : list Z := repeat 0%Z (Z.to_nat (w * h)).

Definition image_surface_create (fmt : Format) (w h : Z) : Surface :=
  mk_surface fmt w h (blank w h).

(** [cairo_create]: font size 10, the default face, no current point,
    opaque black source. *)
Definition create (sfc : nat) : Ctx :=
  mk_ctx sfc 10 "" FONT_SLANT_NORMAL FONT_WEIGHT_NORMAL None (0, 0, 0, 1)%Q.

Definition set_font_size (size : Q) (c : Ctx) : Ctx :=
  mk_ctx (target c) size (font_family c) (font_slant c) (font_weight c)
         (current_point c) (source c).

Definition select_font_face (family : string) (slant : FontSlant)
    (weight : FontWeight) (c : Ctx) : Ctx :=
  mk_ctx (target c) (font_size c) family slant weight
         (current_point c) (source c).

Definition move_to (x y : Q) (c : Ctx) : Ctx :=
  mk_ctx (target c) (font_size c) (font_family c) (font_slant c)
         (font_weight c) (Some (x, y)) (source c).

(** [cairo_set_source_rgb]: an opaque colour, alpha is 1. *)
Definition set_source_rgb (r g b : Q) (c : Ctx) : Ctx :=
  mk_ctx (target c) (font_size c) (font_family c) (font_slant c)
         (font_weight c) (current_point c) (r, g, b, 1%Q).

Definition set_current_point (p : option (Q * Q)) (c : Ctx) : Ctx :=
  mk_ctx (target c) (font_size c) (font_family c) (font_slant c)
         (font_weight c) p (source c).

Definition set_data (px : list Z) (s : Surface) : Surface :=
  mk_surface (format s) (width s) (height s) px.

(** What the library does to pixels and bytes is not part of the script:
    glyph rasterisation, text extents, path filling and PNG encoding are
    taken as given.  The library resolves the font family on its own and
    may consult the environment of the process for it (the font
    configuration is found through environment variables), so the glyphs
    and their advance take the environment as an argument. *)
Class Backend : Type := {
  show_text_pixels : (string -> option string) -> Ctx -> string -> Surface -> list Z;
  text_advance : (string -> option string) -> Ctx -> string -> Q * Q;
  fill_pixels : Ctx -> Surface -> list Z;
  png_encode : Surface -> list Byte.byte
}.

End Cairo.

(* ===================================================================== *)
(** * The external calls of the script and the world they act on *)
(* ===================================================================== *)

Import Py Cairo.

(** One constructor per call the script can make into the runtime, named
    after the Python callee.  Surfaces and contexts are passed by
    reference (an index into the object store).  [sys_argv] and
    [os_getenv] are what the imported [sys] and [os] modules offer to
    read the command line and the environment. *)
Inductive call : Type :=
| datetime_datetime_now
| cairo_ImageSurface (fmt : Format) (w h : Z)
| cairo_Context (sfc : nat)
| Context_set_font_size (ctx : nat) (size : Q)
| Context_select_font_face (ctx : nat) (family : string)
    (slant : FontSlant) (weight : FontWeight)
| Context_move_to (ctx : nat) (x y : Q)
| Context_set_source_rgb (ctx : nat) (r g b : Q)
| Context_show_text (ctx : nat) (text : string)
| Context_fill (ctx : nat)
| Surface_write_to_png (sfc : nat) (filename : string)
| print (s : string)
| sys_stdout_flush
| time_sleep (secs : Q)
| sys_argv
| os_getenv (key : string).

(** What each call answers. *)
Definition answer (c : call) : Type :=
  match c with
  | datetime_datetime_now => datetime
  | cairo_ImageSurface _ _ _ => nat
  | cairo_Context _ => nat
  | sys_argv => list string
  | os_getenv _ => option string
  | _ => unit
  end.

Variant pyE : Type -> Type :=
| Call (c : call) : pyE (answer c).

Definition py (c : call) : itree pyE (answer c) := ITree.trigger (Call c).

(** The world of a run.  [clock] and [faults] are the future: the
    readings the local clock gives to the coming calls of [now()], and
    for each coming external call whether it raises.  [stdout_buffer] and
    [stdout] hold text, as the script hands it to [print], before the
    runtime encodes it.  [surfaces] and [contexts] are the objects created
    so far, a reference being an index; the store only records them and
    says nothing on when the runtime frees an object that is no longer
    referenced. *)
#[projections(primitive)]
Record World : Type := mk_world {
  clock : nat -> datetime;
  faults : nat -> option exn;
  argv : list string;
  environ : string -> option string;
  surfaces : list Surface;
  contexts : list Ctx;
  files : string -> option (list Byte.byte);
  stdout_buffer : string;
  stdout : string;
  slept : Q;
  trace : list call
}.

Definition set_clock (x : nat -> datetime) (w : World) : World :=
  mk_world x (faults w) (argv w) (environ w) (surfaces w) (contexts w)
           (files w) (stdout_buffer w) (stdout w) (slept w) (trace w).

Definition set_faults (x : nat -> option exn) (w : World) : World :=
  mk_world (clock w) x (argv w) (environ w) (surfaces w) (contexts w)
           (files w) (stdout_buffer w) (stdout w) (slept w) (trace w).

Definition set_args (a : list string) (e : string -> option string)
    (w : World) : World :=
  mk_world (clock w) (faults w) a e (surfaces w) (contexts w)
           (files w) (stdout_buffer w) (stdout w) (slept w) (trace w).

Definition set_surfaces (x : list Surface) (w : World) : World :=
  mk_world (clock w) (faults w) (argv w) (environ w) x (contexts w)
           (files w) (stdout_buffer w) (stdout w) (slept w) (trace w).

Definition set_contexts (x : list Ctx) (w : World) : World :=
  mk_world (clock w) (faults w) (argv w) (environ w) (surfaces w) x
           (files w) (stdout_buffer w) (stdout w) (slept w) (trace w).

Definition set_files (x : string -> option (list Byte.byte)) (w : World)
    : World :=
  mk_world (clock w) (faults w) (argv w) (environ w) (surfaces w)
           (contexts w) x (stdout_buffer w) (stdout w) (slept w) (trace w).

Definition set_stdout (buf out : string) (w : World) : World :=
  mk_world (clock w) (faults w) (argv w) (environ w) (surfaces w)
           (contexts w) (files w) buf out (slept w) (trace w).

Definition set_slept (x : Q) (w : World) : World :=
  mk_world (clock w) (faults w) (argv w) (environ w) (surfaces w)
           (contexts w) (files w) (stdout_buffer w) (stdout w) x (trace w).

Definition set_trace (x : list call) (w : World) : World :=
  mk_world (clock w) (faults w) (argv w) (environ w) (surfaces w)
           (contexts w) (files w) (stdout_buffer w) (stdout w) (slept w) x.

(** Replace the object at reference [i]. *)
Fixpoint update {A : Type} (i : nat) (x : A) (l : list A) : list A :=
  match l, i with
  | [], _ => []
  | _ :: l', O => x :: l'
  | y :: l', S i' => y :: update i' x l'
  end.

Definition write_file (p : string) (bytes : list Byte.byte)
    (fs : string -> option (list Byte.byte)) : string -> option (list Byte.byte) :=
  fun q => if String.eqb q p then Some bytes else fs q.

(** How a run stands when it is observed: the program returned, an
    exception reached the top level and ended the process, or the program
    is still running. *)
Inductive outcome (R : Type) : Type :=
| Returned (r : R) (w : World) (fuel_left : nat)
| Raised (e : exn) (w : World)
| Running (w : World).

Arguments Raised {R}.
Arguments Running {R}.

Section Semantics.

Context {backend : Backend}.

(** A method call on the context at reference [ctx] that only changes
    the state of the context. *)
Definition on_context (ctx : nat) (f : Ctx -> Ctx) (w : World)
    : (exn + unit) * World :=
  match nth_error (contexts w) ctx with
  | Some c => (inr tt, set_contexts (update ctx (f c) (contexts w)) w)
  | None => (inl TypeError, w)
  end.

(** A drawing call: the pixels of the surface the context is bound to
    change, and the context gets a new current point. *)
Definition draw (ctx : nat) (px : Ctx -> Surface -> list Z)
    (pt : Ctx -> option (Q * Q)) (w : World) : (exn + unit) * World :=
  match nth_error (contexts w) ctx with
  | Some c =>
      match nth_error (surfaces w) (target c) with
      | Some s =>
          (inr tt,
           set_surfaces (update (target c) (set_data (px c s) s) (surfaces w))
             (set_contexts (update ctx (set_current_point (pt c) c) (contexts w))
                w))
      | None => (inl TypeError, w)
      end
  | None => (inl TypeError, w)
  end.

Definition point_after_text (env : string -> option string) (text : string)
    (c : Ctx) : option (Q * Q) :=
  let '(x, y) := match current_point c with Some p => p | None => (0, 0)%Q end in
  let '(dx, dy) := text_advance env c text in
  Some (x + dx, y + dy)%Q.

(** The effect of a call that does not fail for an outside reason. *)
Definition perform (c : call) (w : World) : (exn + answer c) * World :=
  match c as c0 return (exn + answer c0) * World with
  | datetime_datetime_now =>
      (inr (clock w 0), set_clock (fun i => clock w (S i)) w)
  | cairo_ImageSurface fmt wd ht =>
      if ((0 <=? wd) && (wd <=? 32767) && (0 <=? ht) && (ht <=? 32767))%Z
      then (inr (List.length (surfaces w)),
            set_surfaces (surfaces w ++ [image_surface_create fmt wd ht]) w)
      else (inl (CairoError "invalid value for an input"), w)
  | cairo_Context sfc =>
      match nth_error (surfaces w) sfc with
      | Some _ =>
          (inr (List.length (contexts w)),
           set_contexts (contexts w ++ [create sfc]) w)
      | None => (inl TypeError, w)
      end
  | Context_set_font_size ctx size =>
      on_context ctx (set_font_size size) w
  | Context_select_font_face ctx family slant weight =>
      on_context ctx (select_font_face family slant weight) w
  | Context_move_to ctx x y =>
      on_context ctx (move_to x y) w
  | Context_set_source_rgb ctx r g b =>
      on_context ctx (set_source_rgb r g b) w
  | Context_show_text ctx text =>
      draw ctx (fun c s => show_text_pixels (environ w) c text s)
           (point_after_text (environ w) text) w
  | Context_fill ctx =>
      draw ctx fill_pixels (fun _ => None) w
  | Surface_write_to_png sfc filename =>
      match nth_error (surfaces w) sfc with
      | Some s => (inr tt, set_files (write_file filename (png_encode s) (files w)) w)
      | None => (inl TypeError, w)
      end
  | print s =>
      (inr tt, set_stdout (stdout_buffer w ++ s ++ String "010" "") (stdout w) w)
  | sys_stdout_flush =>
      (inr tt, set_stdout "" (stdout w ++ stdout_buffer w) w)
  | time_sleep secs =>
      if Qle_bool 0 secs
      then (inr tt, set_slept (slept w + secs)%Q w)
      else (inl ValueError, w)
  | sys_argv => (inr (argv w), w)
  | os_getenv key => (inr (environ w key), w)
  end.

(** Every external call is recorded, and consumes one entry of the
    schedule of faults. *)
Definition logged (c : call) (w : World) : World :=
  set_trace (trace w ++ [c]) (set_faults (fun i => faults w (S i)) w).

(** An external call: either the outside makes it fail (it raises and
    has no other effect) or it is performed.  What a failing call leaves
    behind (a failing [write_to_png] may leave a truncated file) is not
    modelled, and nothing below speaks of the file after such a call. *)
Definition handle (c : call) (w : World) : (exn + answer c) * World :=
  match faults w 0 with
  | Some e => (inl e, logged c w)
  | None => perform c (logged c w)
  end.

(** Run a program for at most [fuel] steps; a step is an external call
    or a silent step of the tree.  Nothing in the programs below catches
    an exception, so the first call that raises ends the run. *)
Fixpoint run {R : Type} (fuel : nat) (t : itree pyE R) (w : World) : outcome R :=
  match observe t with
  | RetF r => Returned r w fuel
  | TauF t' =>
      match fuel with
      | O => Running w
      | S fuel' => run fuel' t' w
      end
  | VisF e k =>
      match fuel with
      | O => Running w
      | S fuel' =>
          match e in pyE X return (X -> itree pyE R) -> outcome R with
          | Call c => fun k' =>
              match handle c w with
              | (inl ex, w') => Raised ex w'
              | (inr x, w') => run fuel' (k' x) w'
              end
          end k
      end
  end.

(** One step of [run], on the observed head of the tree. *)
Definition run_step {R : Type} (f : nat) (ot : itree' pyE R) (w : World) : outcome R :=
  match ot with
  | RetF r => Returned r w f
  | TauF t' =>
      match f with
      | O => Running w
      | S f' => run f' t' w
      end
  | VisF e k =>
      match f with
      | O => Running w
      | S f' =>
          match e in pyE X return (X -> itree pyE R) -> outcome R with
          | Call c => fun k' =>
              match handle c w with
              | (inl ex, w') => Raised ex w'
              | (inr x, w') => run f' (k' x) w'
              end
          end k
      end
  end.

(** ** Straight-line calls

    The world after a call that is performed, and a run of a fixed list
    of calls in which only the schedule of faults can stop a call. *)
Definition effect (c : call) (w : World) : World := snd (perform c (logged c w)).

Fixpoint run_calls (fuel : nat) (cs : list call) (w : World) {struct fuel}
    : outcome unit :=
  match cs with
  | [] => Returned tt w fuel
  | c :: cs' =>
      match fuel with
      | O => Running w
      | S fuel' =>
          match faults w 0 with
          | Some e => Raised e (logged c w)
          | None => run_calls fuel' cs' (effect c w)
          end
      end
  end.

End Semantics.

(* ===================================================================== *)
(** * The script *)
(* ===================================================================== *)

(** The body of [while True:], line by line. *)
Definition loop_body : itree pyE unit :=
  let '(WIDTH, HEIGHT) := (270, 28)%Z in
  sfc <- py (cairo_ImageSurface ARGB32 WIDTH HEIGHT) ;;
  ctx <- py (cairo_Context sfc) ;;
  py (Context_set_font_size ctx 16) ;;
  py (Context_select_font_face ctx "Courier" FONT_SLANT_NORMAL FONT_WEIGHT_NORMAL) ;;
  py (Context_move_to ctx 3 20) ;;
  py (Context_set_source_rgb ctx 1.0 1.0 1.0) ;;
  now <- py datetime_datetime_now ;;
  let time_str := percent "%s" (str_datetime now) in
  py (Context_show_text ctx time_str) ;;
  py (Context_fill ctx) ;;
  let output_filename := "/tmp/custom-clock.png" in
  py (Surface_write_to_png sfc output_filename) ;;
  py (print output_filename) ;;
  py (print time_str) ;;
  py sys_stdout_flush ;;
  py (time_sleep 1).

(** [while True: ...] *)
Definition main : itree pyE void := ITree.forever loop_body.

(* ===================================================================== *)
(** * One iteration, in closed form *)
(* ===================================================================== *)

(** The text of an iteration: ["%s" % now]. *)
Definition time_str (now : datetime) : string := percent "%s" (str_datetime now).

Definition output_filename : string := "/tmp/custom-clock.png".

(** The calls of one iteration, in the order the body makes them, for the
    references [sfc] and [ctx] it got and the text it formatted. *)
Definition iteration_calls (sfc ctx : nat) (text : string) : list call :=
  [ cairo_ImageSurface ARGB32 270 28;
    cairo_Context sfc;
    Context_set_font_size ctx 16;
    Context_select_font_face ctx "Courier" FONT_SLANT_NORMAL FONT_WEIGHT_NORMAL;
    Context_move_to ctx 3 20;
    Context_set_source_rgb ctx 1.0 1.0 1.0;
    datetime_datetime_now;
    Context_show_text ctx text;
    Context_fill ctx;
    Surface_write_to_png sfc output_filename;
    print output_filename;
    print text;
    sys_stdout_flush;
    time_sleep 1 ].

(** The calls of iteration [i] of a run that starts in [w]. *)
Definition calls_of (w : World) (i : nat) : list call :=
  iteration_calls (List.length (surfaces w) + i) (List.length (contexts w) + i)
                  (time_str (clock w i)).

(** The calls of the first [n] iterations. *)
Definition script (w : World) (n : nat) : list call :=
  flat_map (calls_of w) (seq 0 n).

(** The canvas as [cairo.ImageSurface(cairo.Format.ARGB32, 270, 28)]
    returns it. *)
Definition canvas : Surface := image_surface_create ARGB32 270 28.

(** The context when [show_text] is called. *)
Definition configured (sfc : nat) : Ctx :=
  mk_ctx sfc 16 "Courier" FONT_SLANT_NORMAL FONT_WEIGHT_NORMAL
         (Some (3, 20)%Q) (1.0, 1.0, 1.0, 1)%Q.

Section Closed.

Context {backend : Backend}.

Definition ctx_after_text (env : string -> option string) (sfc : nat)
    (text : string) : Ctx :=
  set_current_point (point_after_text env text (configured sfc)) (configured sfc).

(** The library renders text alike under two environments. *)
Definition renders_alike (e1 e2 : string -> option string) : Prop :=
  (forall c s sf, show_text_pixels e1 c s sf = show_text_pixels e2 c s sf) /\
  (forall c s, text_advance e1 c s = text_advance e2 c s).

(** The surface that is written: the text shown on the blank canvas,
    then [fill()]. *)
Definition rendered (env : string -> option string) (sfc : nat)
    (text : string) : Surface :=
  let s := set_data (show_text_pixels env (configured sfc) text canvas) canvas in
  set_data (fill_pixels (ctx_after_text env sfc text) s) s.

Definition ctx_at_end (env : string -> option string) (sfc : nat)
    (text : string) : Ctx :=
  set_current_point None (ctx_after_text env sfc text).

(** The two lines an iteration prints. *)
Definition lines (text : string) : string :=
  (output_filename ++ String "010" "") ++ text ++ String "010" "".

(** The world after one iteration in which no call fails. *)
Definition iteration (w : World) : World :=
  let sfc := List.length (surfaces w) in
  let text := time_str (clock w 0) in
  mk_world (fun i => clock w (S i))
           (fun i => faults w (14 + i))
           (argv w) (environ w)
           (surfaces w ++ [rendered (environ w) sfc text])
           (contexts w ++ [ctx_at_end (environ w) sfc text])
           (write_file output_filename
              (png_encode (rendered (environ w) sfc text)) (files w))
           ""
           (stdout w ++ (stdout_buffer w ++ output_filename ++ String "010" "")
                     ++ text ++ String "010" "")
           (slept w + 1)%Q
           (trace w ++ iteration_calls sfc (List.length (contexts w)) text).

(** The world after [n] iterations. *)
Fixpoint after (n : nat) (w : World) : World :=
  match n with
  | O => w
  | S n' => after n' (iteration w)
  end.

(** The image of iteration [i] of a run that starts in [w]. *)
Definition image_of (w : World) (i : nat) : Surface :=
  rendered (environ w) (List.length (surfaces w) + i) (time_str (clock w i)).

(** What the first [n] iterations print. *)
Definition output_of (w : World) (n : nat) : string :=
  fold_right append "" (map (fun i => lines (time_str (clock w i))) (seq 0 n)).

(** The world after the calls [cs], each performed. *)
Definition perform_all (cs : list call) (w : World) : World :=
  fold_left (fun w' c => effect c w') cs w.

End Closed.

(* ===================================================================== *)
(** * Observations on runs and traces *)
(* ===================================================================== *)

Definition world_of {R : Type} (o : outcome R) : World :=
  match o with
  | Returned _ w _ => w
  | Raised _ w => w
  | Running w => w
  end.

(** How the process stands: [None] while it runs, [Some None] if the
    program returned, [Some (Some e)] if [e] ended it. *)
Definition status {R : Type} (o : outcome R) : option (option exn) :=
  match o with
  | Returned _ _ _ => Some None
  | Raised e _ => Some (Some e)
  | Running _ => None
  end.

Definition outcome_map {R : Type} (f : World -> World) (o : outcome R) : outcome R :=
  match o with
  | Returned r w g => Returned r (f w) g
  | Raised e w => Raised e (f w)
  | Running w => Running (f w)
  end.

(** Two worlds in which a run takes the same course: they agree on the
    clock, the faults, the number of objects, standard output, the time
    slept and the calls made; the command line, the environment, the
    pixels and the files are left aside. *)
Definition same_course (w1 w2 : World) : Prop :=
  clock w1 = clock w2 /\ faults w1 = faults w2 /\
  List.length (surfaces w1) = List.length (surfaces w2) /\
  List.length (contexts w1) = List.length (contexts w2) /\
  stdout_buffer w1 = stdout_buffer w2 /\ stdout w1 = stdout w2 /\
  slept w1 = slept w2 /\ trace w1 = trace w2.

Definition same_outcome {R : Type} (o1 o2 : outcome R) : Prop :=
  match o1, o2 with
  | Returned _ w1 f1, Returned _ w2 f2 => f1 = f2 /\ same_course w1 w2
  | Raised e1 w1, Raised e2 w2 => e1 = e2 /\ same_course w1 w2
  | Running w1, Running w2 => same_course w1 w2
  | _, _ => False
  end.

(** Calls that read the command line or the environment. *)
Definition reads_args (c : call) : bool :=
  match c with
  | sys_argv | os_getenv _ => true
  | _ => false
  end.

Definition is_now (c : call) : bool :=
  match c with datetime_datetime_now => true | _ => false end.

Definition is_canvas (c : call) : bool :=
  match c with cairo_ImageSurface _ _ _ => true | _ => false end.

Definition is_sleep (c : call) : bool :=
  match c with time_sleep _ => true | _ => false end.

Definition is_show_text (c : call) : bool :=
  match c with Context_show_text _ _ => true | _ => false end.


Definition is_print (c : call) : bool :=
  match c with print _ => true | _ => false end.

(** The calls of iteration [i] in a trace of whole iterations. *)
Definition segment (i : nat) (tr : list call) : list call :=
  firstn 14 (skipn (14 * i) tr).

(** The texts shown, the strings printed and the files written, in order. *)
Definition shown (tr : list call) : list string :=
  flat_map (fun c => match c with Context_show_text _ s => [s] | _ => [] end) tr.

Definition printed (tr : list call) : list string :=
  flat_map (fun c => match c with print s => [s] | _ => [] end) tr.

Definition written (tr : list call) : list string :=
  flat_map (fun c => match c with Surface_write_to_png _ p => [p] | _ => [] end) tr.

Definition count (p : call -> bool) (tr : list call) : nat :=
  List.length (filter p tr).

(** The index of the first call that satisfies [p]. *)
Fixpoint first_index (p : call -> bool) (tr : list call) : option nat :=
  match tr with
  | [] => None
  | c :: tr' => if p c then Some 0 else option_map S (first_index p tr')
  end.

(** A call satisfying [p] is made, and the first one comes before the
    first call satisfying [q]. *)
Definition precedes (p q : call -> bool) (tr : list call) : Prop :=
  exists i j, first_index p tr = Some i /\ first_index q tr = Some j /\ i < j.

(* ===================================================================== *)
(** * The timestamp format *)
(* ===================================================================== *)

(** Exactly [k] decimal digits of [n], most significant first. *)
Fixpoint digits (k : nat) (n : Z) : string :=
  match k with
  | O => ""
  | S k' => digits k' (n / 10) ++ String (digit_char (n mod 10)) ""
  end.

(** [YYYY-MM-DD HH:MM:SS.ffffff], without [.ffffff] when the microseconds
    are zero. *)
Definition timestamp_format (d : datetime) : string :=
  digits 4 (year d) ++ "-" ++ digits 2 (month d) ++ "-" ++ digits 2 (day d)
  ++ " " ++ digits 2 (hour d) ++ ":" ++ digits 2 (minute d) ++ ":"
  ++ digits 2 (second d)
  ++ (if (microsecond d =? 0)%Z then "" else "." ++ digits 6 (microsecond d)).

(* ===================================================================== *)
(** * A sample backend and sample worlds *)
(* ===================================================================== *)

(** A stand-in for the library: the text sets one pixel per character,
    and the encoding is the PNG signature followed by the size and the
    low byte of every pixel. *)
Definition sample_backend : Backend := {|
  show_text_pixels := fun _ _ s sf =>
    (repeat 4294967295%Z (String.length s)
      ++ skipn (String.length s) (data sf))%list;
  text_advance := fun _ c s =>
    (font_size c * inject_Z (Z.of_nat (String.length s)), 0)%Q;
  fill_pixels := fun _ sf => data sf;
  png_encode := fun sf =>
    ([Byte.x89; Byte.x50; Byte.x4e; Byte.x47]
      ++ map (fun z => match Byte.of_N (Z.to_N (z mod 256)) with
                       | Some b => b
                       | None => Byte.x00
                       end) (width sf :: height sf :: data sf))%list
|}.

(** A stand-in for a library that resolves its fonts through the
    environment: when [FONTCONFIG_FILE] is set another font is found and
    the glyphs come out differently. *)
Definition fontconfig_backend : Backend := {|
  show_text_pixels := fun env _ s sf =>
    (repeat (match env "FONTCONFIG_FILE" with
             | Some _ => 4278190080%Z
             | None => 4294967295%Z
             end) (String.length s)
      ++ skipn (String.length s) (data sf))%list;
  text_advance := fun _ c s =>
    (font_size c * inject_Z (Z.of_nat (String.length s)), 0)%Q;
  fill_pixels := fun _ sf => data sf;
  png_encode := png_encode (Backend := sample_backend)
|}.

(** A clock that starts at 2024-03-07 09:05:00 and advances by one
    second and 250 microseconds per reading. *)
Definition sample_clock (i : nat) : datetime :=
  mk_datetime 2024 3 7 9 5 (Z.of_nat i) (250 * Z.of_nat i).

(** A fresh process in which nothing fails. *)
Definition sample_world : World :=
  mk_world sample_clock (fun _ => None) ["custom-clock.py"] (fun _ => None)
           [] [] (fun _ => None) "" "" 0 [].

(** The same process started with another font configuration in its
    environment. *)
Definition other_fonts_world : World :=
  set_args (argv sample_world)
           (fun key => if String.eqb key "FONTCONFIG_FILE"
                       then Some "/etc/fonts/other.conf" else None)
           sample_world.

(** The same, but the disk is full at the second [write_to_png]. *)
Definition faulty_world : World :=
  set_faults (fun i => if i =? 23 then Some (OSError 28) else None) sample_world.


(** The number of newline characters of a text. *)
Fixpoint newlines (s : string) : nat :=
  match s with
  | EmptyString => 0
  | String c s' => (if Ascii.eqb c "010" then 1 else 0) + newlines s'
  end.

(* ===================================================================== *)
(** * Strings: the default text of a date-time *)
(* ===================================================================== *)

Lemma append_assoc (a b c : string) : (a ++ b) ++ c = a ++ b ++ c.
Proof. induction a as [|x a IH]; cbn; [reflexivity|now rewrite IH]. Qed.

Lemma append_nil_r (a : string) : a ++ "" = a.
Proof. induction a as [|x a IH]; cbn; [reflexivity|now rewrite IH]. Qed.

Lemma length_append (a b : string) :
  String.length (a ++ b) = String.length a + String.length b.
Proof. induction a as [|x a IH]; cbn; [reflexivity|now rewrite IH]. Qed.

Lemma percent_s (s : string) : percent "%s" s = s.
Proof. cbn. apply append_nil_r. Qed.

Lemma zeros_snoc k : zeros k ++ "0" = String "0" (zeros k).
Proof. induction k as [|k IH]; cbn; [reflexivity|now rewrite IH]. Qed.

Lemma digits_0 k : digits k 0 = zeros k.
Proof.
  induction k as [|k IH]; [reflexivity|].
  cbn [digits]. rewrite Zdiv_0_l, IH. apply zeros_snoc.
Qed.

Lemma length_digits k : forall n, String.length (digits k n) = k.
Proof.
  induction k as [|k IH]; intros n; [reflexivity|].
  cbn [digits]. rewrite length_append, IH. cbn. lia.
Qed.

Lemma decimal_aux_acc f : forall n acc,
  decimal_aux f n acc = decimal_aux f n "" ++ acc.
Proof.
  induction f as [|f IH]; intros n acc; [reflexivity|].
  cbn [decimal_aux]. destruct (n / 10 =? 0)%Z; [reflexivity|].
  rewrite IH, (IH _ (String _ "")), append_assoc. reflexivity.
Qed.

(** With enough fuel, padding the digits of [n] to [S k] places gives
    exactly the [S k] digits of [n]. *)
Lemma decimal_aux_digits k : forall n f,
  (0 <= n < 10 ^ Z.of_nat (S k))%Z -> (n < 2 ^ Z.of_nat f)%Z -> 0 < f ->
  String.length (decimal_aux f n "") <= S k /\
  zeros (S k - String.length (decimal_aux f n "")) ++ decimal_aux f n ""
  = digits (S k) n.
Proof.
  induction k as [|k IH]; intros n f Hn Hf Hpos.
  - destruct f as [|f]; [lia|].
    cbn [decimal_aux]. change (10 ^ Z.of_nat 1)%Z with 10%Z in Hn.
    replace (n / 10)%Z with 0%Z by (symmetry; apply Z.div_small; lia).
    cbn. split; [lia|reflexivity].
  - destruct f as [|f]; [lia|].
    cbn [decimal_aux].
    rewrite Nat2Z.inj_succ, Z.pow_succ_r in Hn, Hf by lia.
    destruct (n / 10 =? 0)%Z eqn:E.
    + apply Z.eqb_eq in E. cbn [String.length digits]. rewrite E.
      split; [lia|].
      replace (S (S k) - 1) with (S k) by lia.
      change (digits k (0 / 10) ++ String (digit_char (0 mod 10)) "")
        with (digits (S k) 0).
      rewrite digits_0. reflexivity.
    + apply Z.eqb_neq in E. rewrite decimal_aux_acc.
      destruct (IH (n / 10)%Z f) as [Hl Hd].
      * split; [apply Z.div_pos; lia|apply Z.div_lt_upper_bound; lia].
      * apply Z.div_lt_upper_bound; lia.
      * destruct f as [|f]; [|lia]. cbn in Hf.
        assert (n / 10 = 0)%Z by (apply Z.div_small; lia). contradiction.
      * rewrite length_append. cbn [String.length]. split; [lia|].
        replace (S (S k) - (String.length (decimal_aux f (n / 10) "") + 1))
          with (S k - String.length (decimal_aux f (n / 10) "")) by lia.
        rewrite <- append_assoc, Hd. reflexivity.
Qed.

Lemma format_0d_digits k n :
  (0 <= n < 10 ^ Z.of_nat (S k))%Z -> format_0d (S k) n = digits (S k) n.
Proof.
  intros Hn. unfold format_0d, decimal.
  apply decimal_aux_digits; [exact Hn| |lia].
  destruct (Z.eq_dec n 0) as [->|Hz]; [cbn; lia|].
  rewrite Nat2Z.inj_succ, Z2Nat.id by apply Z.log2_nonneg.
  apply Z.log2_lt_pow2; lia.
Qed.

Example time_str_sample :
  time_str (sample_clock 1) = "2024-03-07 09:05:01.000250".
Proof. reflexivity. Qed.

Example time_str_whole_second :
  time_str (sample_clock 0) = "2024-03-07 09:05:00".
Proof. reflexivity. Qed.

Example format_0d_wide : format_0d 2 12345 = "12345".
Proof. reflexivity. Qed.

Lemma time_str_format d : valid_datetime d -> time_str d = timestamp_format d.
Proof.
  unfold valid_datetime. intros H.
  unfold time_str. rewrite percent_s.
  unfold str_datetime, isoformat, format_time, timestamp_format.
  rewrite (@format_0d_digits 3), !(@format_0d_digits 1) by (cbn; lia).
  destruct (microsecond d =? 0)%Z.
  - rewrite ?append_assoc; reflexivity.
  - rewrite (@format_0d_digits 5) by (cbn; lia).
    rewrite ?append_assoc. reflexivity.
Qed.

Lemma length_timestamp_format d :
  String.length (timestamp_format d) = if (microsecond d =? 0)%Z then 19 else 26.
Proof.
  unfold timestamp_format.
  destruct (microsecond d =? 0)%Z;
    repeat (rewrite length_append || rewrite length_digits || cbn [String.length]);
    reflexivity.
Qed.

(* ===================================================================== *)
(** * Runs of interaction trees *)
(* ===================================================================== *)

(** [observe] computes through [bind] once the head of the first tree is
    known. *)
Lemma observe_bind E R S (t : itree E R) (k : R -> itree E S) :
  observe (ITree.bind t k) =
  match observe t with
  | RetF r => observe (k r)
  | TauF t' => TauF (ITree.bind t' k)
  | VisF e h => VisF e (fun x => ITree.bind (h x) k)
  end.
Proof.
  change (observe (ITree.bind t k)) with
    (observe (match observe t with
              | RetF r => k r
              | TauF t' => Tau (ITree.bind t' k)
              | VisF e h => Vis e (fun x => ITree.bind (h x) k)
              end)).
  destruct (observe t); reflexivity.
Qed.

Section Runs.

Context {backend : Backend}.

Lemma run_observe R (t u : itree pyE R) f w :
  observe t = observe u -> run f t w = run f u w.
Proof. intros H. destruct f; simpl; rewrite H; reflexivity. Qed.

Lemma run_unfold R f (t : itree pyE R) w : run f t w = run_step f (observe t) w.
Proof. destruct f; reflexivity. Qed.

(** Sequencing: the second program runs on the fuel the first one left,
    and an exception or the end of the fuel in the first one is the
    outcome of the whole. *)
Lemma run_bind R S (k : R -> itree pyE S) f : forall (t : itree pyE R) w,
  run f (ITree.bind t k) w =
  match run f t w with
  | Returned r w' f' => run f' (k r) w'
  | Raised e w' => Raised e w'
  | Running w' => Running w'
  end.
Proof.
  induction f as [|f IH]; intros t w;
    rewrite (run_unfold _ (ITree.bind t k)), (run_unfold _ t), observe_bind;
    destruct (observe t) as [r|t'|X e h]; cbn [run_step];
    try reflexivity; try (symmetry; apply run_unfold).
  - apply IH.
  - destruct e as [c]. destruct (handle c w) as [[ex|x] w']; [reflexivity|apply IH].
Qed.

(** [while True]: when the body returns, the loop takes one silent step
    and runs the body again; nothing else ends it. *)
Lemma run_forever R (t : itree pyE R) f w :
  run f (ITree.forever t : itree pyE void) w =
  match run f t w with
  | Returned _ w' (S f') => run f' (ITree.forever t) w'
  | Returned _ w' O => Running w'
  | Raised e w' => Raised e w'
  | Running w' => Running w'
  end.
Proof.
  rewrite (run_observe (ITree.forever t)
             (ITree.bind t (fun _ => Tau (ITree.forever t)))) by reflexivity.
  rewrite run_bind. destruct (run f t w) as [r w' [|f']| |]; reflexivity.
Qed.

Lemma run_call R (c : call) (k : answer c -> itree pyE R) f w :
  run (S f) (ITree.bind (py c) k) w =
  match handle c w with
  | (inl ex, w') => Raised ex w'
  | (inr x, w') => run f (k x) w'
  end.
Proof.
  rewrite run_bind. simpl. destruct (handle c w) as [[ex|x] w']; [reflexivity|].
  rewrite (run_unfold f (Ret x)). reflexivity.
Qed.

Lemma run_call_last (c : call) f w :
  run (S f) (py c) w =
  match handle c w with
  | (inl ex, w') => Raised ex w'
  | (inr x, w') => Returned x w' f
  end.
Proof.
  simpl. destruct (handle c w) as [[ex|x] w']; [reflexivity|].
  rewrite (run_unfold f (Ret x)). reflexivity.
Qed.

Lemma nth_error_snoc A (l : list A) x : nth_error (l ++ [x]) (List.length l) = Some x.
Proof. induction l; simpl; auto. Qed.

Lemma update_snoc A (l : list A) x y : update (List.length l) y (l ++ [x]) = (l ++ [y])%list.
Proof. induction l; simpl; congruence. Qed.

(** Symbolic execution of one call: the object store is a list that grows
    at its end, and the references of an iteration are its last indices. *)
Ltac heap := rewrite ?nth_error_snoc, ?update_snoc.

Ltac norm :=
  repeat (progress (cbn -[percent str_datetime blank perform_all effect];
                    unfold on_context, draw;
                    cbn -[percent str_datetime blank perform_all effect]; heap)).

Ltac call_step :=
  match goal with
  | |- run ?f _ _ = _ => destruct f as [|f]; [reflexivity|]
  end;
  match goal with
  | |- run (S ?f) (ITree.bind (py ?c) ?k) ?w = _ =>
      refine (eq_trans (run_call c k f w) _)
  | |- run (S ?f) (py ?c) ?w = _ =>
      refine (eq_trans (run_call_last c f w) _)
  end;
  cbn [run_calls]; unfold handle, effect;
  match goal with
  | |- context [faults ?W 0] => destruct (faults W 0); [reflexivity|]
  end;
  norm.

(** The body makes the calls of [iteration_calls], in this order, with
    the references and the text fixed by the world it starts in; whatever
    the fuel and the faults, only a fault stops it before the end (no call
    of the body raises on its own). *)
Lemma body_calls f w :
  run f loop_body w =
  run_calls f (iteration_calls (List.length (surfaces w)) (List.length (contexts w))
                 (time_str (clock w 0))) w.
Proof.
  unfold loop_body, iteration_calls, time_str, output_filename.
  do 14 call_step. destruct f; reflexivity.
Qed.

(** Calls never touch the schedule of faults or the trace beyond logging. *)
Lemma faults_effect c w i : faults (effect c w) i = faults w (S i).
Proof.
  unfold effect; destruct c; cbn; unfold on_context, draw; cbn;
    repeat match goal with
           | |- context [match ?x with _ => _ end] => destruct x; cbn
           end; reflexivity.
Qed.

Lemma trace_effect c w : trace (effect c w) = (trace w ++ [c])%list.
Proof.
  unfold effect; destruct c; cbn; unfold on_context, draw; cbn;
    repeat match goal with
           | |- context [match ?x with _ => _ end] => destruct x; cbn
           end; reflexivity.
Qed.

Lemma faults_perform_all cs : forall w i,
  faults (perform_all cs w) i = faults w (List.length cs + i).
Proof.
  induction cs as [|c cs IH]; intros w i; [reflexivity|].
  cbn. unfold perform_all in IH. rewrite IH, faults_effect. f_equal; lia.
Qed.

Lemma trace_perform_all cs : forall w,
  trace (perform_all cs w) = (trace w ++ cs)%list.
Proof.
  induction cs as [|c cs IH]; intros w; cbn.
  - now rewrite app_nil_r.
  - unfold perform_all in IH. rewrite IH, trace_effect, <- app_assoc. reflexivity.
Qed.

Lemma run_calls_nil f w : run_calls f [] w = Returned tt w f.
Proof. destruct f; reflexivity. Qed.

Lemma run_calls_ok cs : forall w g,
  (forall i, i < List.length cs -> faults w i = None) ->
  run_calls (List.length cs + g) cs w = Returned tt (perform_all cs w) g.
Proof.
  induction cs as [|c cs IH]; intros w g H; [apply run_calls_nil|].
  cbn. rewrite (H 0) by (cbn; lia). apply IH.
  intros i Hi. rewrite faults_effect. apply H. cbn. lia.
Qed.

Lemma run_calls_running cs : forall j w,
  j < List.length cs ->
  (forall i, i < j -> faults w i = None) ->
  run_calls j cs w = Running (perform_all (firstn j cs) w).
Proof.
  induction cs as [|c cs IH]; intros j w Hj H; [cbn in Hj; lia|].
  destruct j as [|j]; [reflexivity|].
  cbn. rewrite (H 0) by lia. apply IH; [cbn in Hj; lia|].
  intros i Hi. rewrite faults_effect. apply H. lia.
Qed.

Lemma run_calls_raised cs : forall j w e g,
  j < List.length cs ->
  (forall i, i < j -> faults w i = None) ->
  faults w j = Some e ->
  run_calls (S j + g) cs w =
  Raised e (logged (nth j cs sys_stdout_flush) (perform_all (firstn j cs) w)).
Proof.
  induction cs as [|c cs IH]; intros j w e g Hj H He; [cbn in Hj; lia|].
  destruct j as [|j].
  - cbn. rewrite He. reflexivity.
  - change (S (S j) + g) with (S (S j + g)). cbn [run_calls]. rewrite (H 0) by lia.
    rewrite (IH j (effect c w) e g); [reflexivity|cbn in Hj; lia| |].
    + intros i Hi. rewrite faults_effect. apply H. lia.
    + rewrite faults_effect. exact He.
Qed.

(** Worlds with equal fields are equal. *)
Lemma world_ext (w1 w2 : World) :
  clock w1 = clock w2 -> faults w1 = faults w2 -> argv w1 = argv w2 ->
  environ w1 = environ w2 -> surfaces w1 = surfaces w2 ->
  contexts w1 = contexts w2 -> files w1 = files w2 ->
  stdout_buffer w1 = stdout_buffer w2 -> stdout w1 = stdout w2 ->
  slept w1 = slept w2 -> trace w1 = trace w2 -> w1 = w2.
Proof.
  destruct w1, w2; cbn; intros; subst; reflexivity.
Qed.

Lemma perform_all_cons c cs w :
  perform_all (c :: cs) w = perform_all cs (effect c w).
Proof. reflexivity. Qed.

Ltac effect_step := rewrite perform_all_cons; unfold effect; norm.

(** The fourteen calls of an iteration, each performed, lead to
    [iteration w]. *)
Lemma perform_all_iteration w :
  perform_all (iteration_calls (List.length (surfaces w)) (List.length (contexts w))
                 (time_str (clock w 0))) w = iteration w.
Proof.
  unfold iteration_calls, iteration, time_str, output_filename.
  do 14 effect_step. unfold perform_all. cbn [fold_left].
  apply world_ext; cbn -[percent str_datetime blank]; try reflexivity.
  rewrite <- !app_assoc. reflexivity.
Qed.

Lemma run_body_ok w g :
  (forall i, i < 14 -> faults w i = None) ->
  run (14 + g) loop_body w = Returned tt (iteration w) g.
Proof.
  intros H. rewrite body_calls.
  rewrite <- perform_all_iteration. apply (run_calls_ok (iteration_calls _ _ _)). exact H.
Qed.

Lemma run_main_step w g :
  (forall i, i < 14 -> faults w i = None) ->
  run (15 + g) main w = run g main (iteration w).
Proof.
  intros H. unfold main. rewrite run_forever.
  change (15 + g) with (14 + S g). rewrite run_body_ok by exact H. reflexivity.
Qed.

Lemma faults_after n : forall w i, faults (after n w) i = faults w (14 * n + i).
Proof.
  induction n as [|n IH]; intros w i; [reflexivity|].
  cbn [after]. rewrite IH. cbn [iteration faults]. f_equal; lia.
Qed.

(** [n] iterations take [15 * n] steps: fourteen calls and the silent
    step of the loop each. *)
Lemma run_main_after n : forall w g,
  (forall i, i < 14 * n -> faults w i = None) ->
  run (15 * n + g) main w = run g main (after n w).
Proof.
  induction n as [|n IH]; intros w g H; [reflexivity|].
  replace (15 * S n + g) with (15 + (15 * n + g)) by lia.
  rewrite run_main_step by (intros; apply H; lia).
  cbn [after]. apply IH. intros i Hi. cbn [iteration faults]. apply H. lia.
Qed.

Lemma clock_after n : forall w i, clock (after n w) i = clock w (n + i).
Proof.
  induction n as [|n IH]; intros w i; [reflexivity|].
  cbn [after]. rewrite IH. cbn [iteration clock]. f_equal; lia.
Qed.

Lemma flat_map_seq_S A (f : nat -> list A) n : forall a,
  flat_map f (seq (S a) n) = flat_map (fun i => f (S i)) (seq a n).
Proof.
  induction n as [|n IH]; intros a; [reflexivity|].
  cbn [seq flat_map]. now rewrite IH.
Qed.

Lemma map_seq_S A (f : nat -> A) n : forall a,
  map f (seq (S a) n) = map (fun i => f (S i)) (seq a n).
Proof.
  induction n as [|n IH]; intros a; [reflexivity|].
  cbn [seq map]. now rewrite IH.
Qed.

Lemma calls_of_iteration w i : calls_of (iteration w) i = calls_of w (S i).
Proof.
  unfold calls_of. cbn [iteration surfaces contexts clock].
  rewrite !length_app. cbn [List.length].
  replace (List.length (surfaces w) + 1 + i) with (List.length (surfaces w) + S i) by lia.
  replace (List.length (contexts w) + 1 + i) with (List.length (contexts w) + S i) by lia.
  reflexivity.
Qed.

Lemma script_S w n : script w (S n) = (calls_of w 0 ++ script (iteration w) n)%list.
Proof.
  unfold script. cbn [seq flat_map]. f_equal.
  rewrite flat_map_seq_S. apply flat_map_ext. intros i. symmetry. apply calls_of_iteration.
Qed.

Lemma calls_of_0 w :
  calls_of w 0 = iteration_calls (List.length (surfaces w)) (List.length (contexts w))
                   (time_str (clock w 0)).
Proof. unfold calls_of. now rewrite !Nat.add_0_r. Qed.

Lemma trace_after n : forall w, trace (after n w) = (trace w ++ script w n)%list.
Proof.
  induction n as [|n IH]; intros w.
  - cbn. now rewrite app_nil_r.
  - cbn [after]. rewrite IH, script_S, calls_of_0. cbn [iteration trace].
    now rewrite app_assoc.
Qed.

Lemma calls_of_after n : forall w i, calls_of (after n w) i = calls_of w (n + i).
Proof.
  induction n as [|n IH]; intros w i; [reflexivity|].
  cbn [after]. rewrite IH, calls_of_iteration. f_equal; lia.
Qed.

Lemma length_calls_of w i : List.length (calls_of w i) = 14.
Proof. reflexivity. Qed.

Lemma length_flat_calls w l :
  List.length (flat_map (calls_of w) l) = 14 * List.length l.
Proof.
  induction l as [|i l IH]; [reflexivity|].
  cbn [flat_map]. rewrite length_app, IH, length_calls_of. cbn [List.length]. lia.
Qed.

Lemma length_script w n : List.length (script w n) = 14 * n.
Proof. unfold script. now rewrite length_flat_calls, length_seq. Qed.

Lemma script_snoc w n : script w (S n) = (script w n ++ calls_of w n)%list.
Proof.
  unfold script. rewrite seq_S, flat_map_app. reflexivity.
Qed.

Lemma length_surfaces_after n : forall w,
  List.length (surfaces (after n w)) = List.length (surfaces w) + n.
Proof.
  induction n as [|n IH]; intros w; [cbn; lia|].
  cbn [after]. rewrite IH. cbn [iteration surfaces]. rewrite length_app. cbn. lia.
Qed.

Lemma length_contexts_after n : forall w,
  List.length (contexts (after n w)) = List.length (contexts w) + n.
Proof.
  induction n as [|n IH]; intros w; [cbn; lia|].
  cbn [after]. rewrite IH. cbn [iteration contexts]. rewrite length_app. cbn. lia.
Qed.

Lemma image_of_iteration w i : image_of (iteration w) i = image_of w (S i).
Proof.
  unfold image_of. cbn [iteration surfaces clock environ].
  rewrite length_app. cbn [List.length].
  replace (List.length (surfaces w) + 1 + i) with (List.length (surfaces w) + S i) by lia.
  reflexivity.
Qed.

Lemma image_of_0 w :
  image_of w 0
  = rendered (environ w) (List.length (surfaces w)) (time_str (clock w 0)).
Proof. unfold image_of. now rewrite Nat.add_0_r. Qed.

Lemma surfaces_after n : forall w,
  surfaces (after n w) = (surfaces w ++ map (image_of w) (seq 0 n))%list.
Proof.
  induction n as [|n IH]; intros w.
  - cbn. now rewrite app_nil_r.
  - cbn [after]. rewrite IH. cbn [iteration surfaces seq map].
    rewrite <- app_assoc, map_seq_S, image_of_0. cbn [app]. do 2 f_equal.
    apply map_ext. intros i. apply image_of_iteration.
Qed.

Lemma files_after_other n q : forall w,
  q <> output_filename -> files (after n w) q = files w q.
Proof.
  induction n as [|n IH]; intros w Hq; [reflexivity|].
  cbn [after]. rewrite IH by exact Hq. cbn [iteration files]. unfold write_file.
  destruct (String.eqb_spec q output_filename); [contradiction|reflexivity].
Qed.

Lemma files_after_S n : forall w,
  files (after (S n) w) output_filename = Some (png_encode (image_of w n)).
Proof.
  induction n as [|n IH]; intros w.
  - cbn [after iteration files]. unfold write_file. rewrite String.eqb_refl.
    now rewrite image_of_0.
  - change (after (S (S n)) w) with (after (S n) (iteration w)).
    rewrite IH, image_of_iteration. reflexivity.
Qed.

Lemma slept_after n : forall w,
  (slept (after n w) == slept w + inject_Z (Z.of_nat n))%Q.
Proof.
  induction n as [|n IH]; intros w.
  - cbn [after]. change (inject_Z (Z.of_nat 0)) with 0%Q. now rewrite Qplus_0_r.
  - cbn [after]. rewrite IH. cbn [iteration slept].
    rewrite Nat2Z.inj_succ, <- Z.add_1_l, inject_Z_plus.
    change (inject_Z 1) with 1%Q. now rewrite Qplus_assoc.
Qed.

(** The text printed by the first [n] iterations. *)
Lemma stdout_buffer_after n : forall w,
  0 < n -> stdout_buffer (after n w) = "".
Proof.
  induction n as [|n IH]; intros w Hn; [lia|].
  cbn [after]. destruct n as [|n]; [reflexivity|]. apply IH. lia.
Qed.

Lemma output_of_S w n :
  output_of w (S n) = lines (time_str (clock w 0)) ++ output_of (iteration w) n.
Proof.
  unfold output_of. cbn [seq map fold_right]. now rewrite map_seq_S.
Qed.

Lemma stdout_after n : forall w,
  stdout (after n w) ++ stdout_buffer (after n w)
  = (stdout w ++ stdout_buffer w) ++ output_of w n.
Proof.
  induction n as [|n IH]; intros w.
  - cbn [after]. unfold output_of. cbn [seq map fold_right]. now rewrite append_nil_r.
  - cbn [after]. rewrite IH, output_of_S. cbn [iteration stdout stdout_buffer].
    unfold lines. now rewrite append_nil_r, !append_assoc.
Qed.

(** ** The loop between two iterations *)

Lemma run_main_running j w :
  j < 14 -> (forall i, i < j -> faults w i = None) ->
  run j main w = Running (perform_all (firstn j (calls_of w 0)) w).
Proof.
  intros Hj H. unfold main. rewrite run_forever, body_calls, <- calls_of_0.
  rewrite run_calls_running by (rewrite ?length_calls_of; assumption).
  reflexivity.
Qed.

Lemma run_main_14 w :
  (forall i, i < 14 -> faults w i = None) -> run 14 main w = Running (iteration w).
Proof.
  intros H. unfold main. rewrite run_forever.
  change 14 with (14 + 0). rewrite run_body_ok by exact H. reflexivity.
Qed.

Lemma run_main_raised j w e g :
  j < 14 -> (forall i, i < j -> faults w i = None) -> faults w j = Some e ->
  run (S j + g) main w =
  Raised e (logged (nth j (calls_of w 0) sys_stdout_flush)
                   (perform_all (firstn j (calls_of w 0)) w)).
Proof.
  intros Hj H He. unfold main. rewrite run_forever, body_calls, <- calls_of_0.
  rewrite (@run_calls_raised (calls_of w 0) j w e g)
    by (rewrite ?length_calls_of; assumption).
  reflexivity.
Qed.

(** The state of the store while an iteration is under way. *)
Lemma surfaces_after_alloc w :
  surfaces (perform_all (firstn 1 (calls_of w 0)) w) = (surfaces w ++ [canvas])%list.
Proof. reflexivity. Qed.

Lemma context_before_text w :
  nth_error (contexts (perform_all (firstn 7 (calls_of w 0)) w))
            (List.length (contexts w))
  = Some (configured (List.length (surfaces w))).
Proof.
  rewrite calls_of_0. unfold iteration_calls. cbn [firstn].
  do 7 effect_step. unfold perform_all.
  cbn [fold_left contexts set_clock logged set_trace set_faults set_contexts].
  rewrite nth_error_snoc. reflexivity.
Qed.

(** ** The command line and the environment *)

Lemma script_reads_no_args sfc ctx text :
  Forall (fun c => reads_args c = false) (iteration_calls sfc ctx text).
Proof. unfold iteration_calls. repeat constructor. Qed.

Lemma run_calls_fuel_left f : forall cs w r w' f',
  run_calls f cs w = Returned r w' f' -> f' <= f.
Proof.
  induction f as [|f IH]; intros cs w r w' f' H.
  - destruct cs; cbn in H; [injection H; lia|discriminate].
  - destruct cs as [|c cs]; cbn in H; [injection H; lia|].
    destruct (faults w 0); [discriminate|]. apply IH in H. lia.
Qed.

(** No call changes the command line or the environment. *)
Lemma environ_effect c w : environ (effect c w) = environ w.
Proof.
  unfold effect; destruct c; cbn; unfold on_context, draw; cbn;
    repeat match goal with
           | |- context [match ?x with _ => _ end] => destruct x; cbn
           end; reflexivity.
Qed.

Lemma environ_run_calls f : forall cs w,
  environ (world_of (run_calls f cs w)) = environ w.
Proof.
  induction f as [|f IH]; intros cs w.
  - destruct cs; reflexivity.
  - destruct cs as [|c cs]; [reflexivity|]. cbn [run_calls].
    destruct (faults w 0); [reflexivity|]. now rewrite IH, environ_effect.
Qed.

(** *** When the library renders alike, the whole world is the same *)

Lemma perform_set_args c a e w :
  renders_alike e (environ w) ->
  reads_args c = false ->
  perform c (set_args a e w)
  = (fst (perform c w), set_args a e (snd (perform c w))).
Proof.
  intros [Hpx Hadv].
  destruct c; try discriminate; intros _; cbn; unfold on_context, draw; cbn;
    repeat match goal with
           | |- context [match nth_error ?l ?i with _ => _ end] =>
               destruct (nth_error l i); cbn
           | |- context [if ?b then _ else _] => destruct b; cbn
           end;
    unfold point_after_text; rewrite ?Hpx, ?Hadv; reflexivity.
Qed.

Lemma effect_set_args c a e w :
  renders_alike e (environ w) ->
  reads_args c = false -> effect c (set_args a e w) = set_args a e (effect c w).
Proof.
  intros A H. unfold effect.
  change (logged c (set_args a e w)) with (set_args a e (logged c w)).
  now rewrite perform_set_args.
Qed.

Lemma run_calls_set_args a e f : forall cs w,
  renders_alike e (environ w) ->
  Forall (fun c => reads_args c = false) cs ->
  run_calls f cs (set_args a e w) = outcome_map (set_args a e) (run_calls f cs w).
Proof.
  induction f as [|f IH]; intros cs w A H.
  - destruct cs; reflexivity.
  - destruct cs as [|c cs]; [reflexivity|]. inversion H; subst.
    cbn [run_calls]. change (faults (set_args a e w) 0) with (faults w 0).
    destruct (faults w 0); [reflexivity|].
    rewrite effect_set_args by assumption.
    apply IH; [now rewrite environ_effect|assumption].
Qed.

Lemma run_body_set_args a e f w :
  renders_alike e (environ w) ->
  run f loop_body (set_args a e w)
  = outcome_map (set_args a e) (run f loop_body w).
Proof.
  intros A. rewrite !body_calls. cbn [set_args surfaces contexts clock].
  apply run_calls_set_args; [exact A|apply script_reads_no_args].
Qed.

Lemma run_main_set_args a e f : forall w,
  renders_alike e (environ w) ->
  run f main (set_args a e w) = outcome_map (set_args a e) (run f main w).
Proof.
  induction f as [f IH] using lt_wf_ind. intros w A.
  unfold main. rewrite !run_forever, run_body_set_args by exact A.
  pose proof (environ_run_calls f
                (iteration_calls (List.length (surfaces w))
                   (List.length (contexts w)) (time_str (clock w 0))) w) as En.
  rewrite <- body_calls in En.
  destruct (run f loop_body w) as [r w' f'| |] eqn:E; cbn [outcome_map]; try reflexivity.
  destruct f' as [|f']; [reflexivity|].
  cbn [world_of] in En.
  apply IH; [|now rewrite En].
  rewrite body_calls in E. apply run_calls_fuel_left in E. lia.
Qed.

(** *** However the library renders, the course of the run is the same *)

Lemma length_update A (l : list A) : forall i x,
  List.length (update i x l) = List.length l.
Proof.
  induction l as [|y l IH]; intros [|i] x; cbn; try reflexivity. now rewrite IH.
Qed.

Lemma logged_course c w1 w2 :
  same_course w1 w2 -> same_course (logged c w1) (logged c w2).
Proof.
  intros (Hc & Hf & Hs & Hx & Hb & Ho & Hsl & Ht).
  unfold same_course. cbn. rewrite Hc, Hf, Hs, Hx, Hb, Ho, Hsl, Ht.
  repeat split; reflexivity.
Qed.

Lemma effect_course c w1 w2 :
  same_course w1 w2 -> same_course (effect c w1) (effect c w2).
Proof.
  intros (Hc & Hf & Hs & Hx & Hb & Ho & Hsl & Ht).
  assert (Hnth : forall i, nth_error (surfaces w1) i = None
                           <-> nth_error (surfaces w2) i = None)
    by (intros i; rewrite !nth_error_None, Hs; reflexivity).
  unfold effect; destruct c; cbn; unfold on_context, draw; cbn;
    repeat match goal with
           | |- context [match nth_error ?l ?i with _ => _ end] =>
               destruct (nth_error l i) eqn:?; cbn
           | |- context [if ?b then _ else _] => destruct b; cbn
           end;
    try (exfalso;
         match goal with
         | H : nth_error (surfaces _) ?i = None |- _ =>
             apply Hnth in H; congruence
         end);
    unfold same_course; cbn;
    rewrite ?length_app, ?length_update, Hc, Hf, Hs, Hx, Hb, Ho, Hsl, Ht;
    repeat split; reflexivity.
Qed.

Lemma run_calls_course f : forall cs w1 w2,
  same_course w1 w2 ->
  same_outcome (run_calls f cs w1) (run_calls f cs w2).
Proof.
  induction f as [|f IH]; intros cs w1 w2 C.
  - destruct cs; cbn; auto.
  - destruct cs as [|c cs]; [cbn; auto|]. cbn [run_calls].
    assert (F : faults w1 0 = faults w2 0)
      by (destruct C as (_ & -> & _); reflexivity).
    rewrite F. destruct (faults w2 0).
    + cbn. split; [reflexivity|now apply logged_course].
    + apply IH. now apply effect_course.
Qed.

Lemma run_body_course f w1 w2 :
  same_course w1 w2 ->
  same_outcome (run f loop_body w1) (run f loop_body w2).
Proof.
  intros C. rewrite !body_calls.
  destruct C as (Hc & Hf & Hs & Hx & Hrest) eqn:E. rewrite Hc, Hs, Hx.
  apply run_calls_course. exact C.
Qed.

Lemma run_main_course f : forall w1 w2,
  same_course w1 w2 ->
  same_outcome (run f main w1) (run f main w2).
Proof.
  induction f as [f IH] using lt_wf_ind. intros w1 w2 C.
  unfold main. rewrite !run_forever.
  pose proof (run_body_course f C) as O.
  destruct (run f loop_body w1) as [r1 v1 f1|e1 v1|v1] eqn:E1;
    destruct (run f loop_body w2) as [r2 v2 f2|e2 v2|v2];
    cbn in O; try contradiction; try exact O.
  destruct O as [<- C']. destruct f1 as [|f1]; [exact C'|].
  apply IH; [|exact C'].
  rewrite body_calls in E1. apply run_calls_fuel_left in E1. lia.
Qed.

Lemma same_outcome_observed R (o1 o2 : outcome R) :
  same_outcome o1 o2 ->
  status o1 = status o2 /\
  trace (world_of o1) = trace (world_of o2) /\
  stdout (world_of o1) = stdout (world_of o2) /\
  stdout_buffer (world_of o1) = stdout_buffer (world_of o2).
Proof.
  destruct o1, o2; cbn; try contradiction.
  - intros [_ (_ & _ & _ & _ & Hb & Ho & _ & Ht)]. auto.
  - intros [-> (_ & _ & _ & _ & Hb & Ho & _ & Ht)]. auto.
  - intros (_ & _ & _ & _ & Hb & Ho & _ & Ht). auto.
Qed.

End Runs.

(* ===================================================================== *)
(** * Whole iterations and their traces *)
(* ===================================================================== *)

Section Traces.

Context {backend : Backend}.

Lemma run_0_main w : run 0 main w = Running w.
Proof. reflexivity. Qed.

Lemma run_main_n n w :
  (forall i, i < 14 * n -> faults w i = None) ->
  run (15 * n) main w = Running (after n w).
Proof.
  intros H. rewrite <- (Nat.add_0_r (15 * n)), run_main_after by exact H.
  apply run_0_main.
Qed.

Lemma segment_script i : forall w n,
  i < n -> segment i (script w n) = calls_of w i.
Proof.
  unfold segment. induction i as [|i IH]; intros w n Hi.
  - destruct n as [|n]; [lia|]. rewrite script_S. reflexivity.
  - destruct n as [|n]; [lia|]. rewrite script_S.
    replace (14 * S i) with (List.length (calls_of w 0) + 14 * i)
      by (rewrite length_calls_of; lia).
    rewrite skipn_app, skipn_all2 by (rewrite length_calls_of; lia).
    replace (List.length (calls_of w 0) + 14 * i - List.length (calls_of w 0))
      with (14 * i) by lia.
    cbn [app]. rewrite IH by lia. apply calls_of_iteration.
Qed.

Lemma shown_script w n :
  shown (script w n) = map (fun i => time_str (clock w i)) (seq 0 n).
Proof.
  unfold script. induction (seq 0 n) as [|i l IH]; [reflexivity|].
  cbn [flat_map map]. unfold shown in *. rewrite flat_map_app, IH. reflexivity.
Qed.

Lemma printed_script w n :
  printed (script w n)
  = flat_map (fun i => [output_filename; time_str (clock w i)]) (seq 0 n).
Proof.
  unfold script. induction (seq 0 n) as [|i l IH]; [reflexivity|].
  cbn [flat_map]. unfold printed in *. rewrite flat_map_app, IH. reflexivity.
Qed.

Lemma written_script w n : written (script w n) = repeat output_filename n.
Proof.
  unfold script. generalize 0.
  induction n as [|n IH]; intros a; [reflexivity|].
  cbn [seq flat_map repeat]. unfold written in *. rewrite flat_map_app, IH. reflexivity.
Qed.

Lemma count_app p l1 l2 : count p (l1 ++ l2) = count p l1 + count p l2.
Proof. unfold count. now rewrite filter_app, length_app. Qed.

Lemma count_script_one p w n :
  (forall i, count p (calls_of w i) = 1) -> count p (script w n) = n.
Proof.
  intros H. unfold script.
  assert (G : forall l, count p (flat_map (calls_of w) l) = List.length l).
  { induction l as [|i l IH]; [reflexivity|].
    cbn [flat_map List.length]. rewrite count_app, H, IH. reflexivity. }
  now rewrite G, length_seq.
Qed.

Lemma run_main_mid i j w :
  j < 14 -> (forall k, k < 14 * i + j -> faults w k = None) ->
  run (15 * i + j) main w
  = Running (perform_all (firstn j (calls_of w i)) (after i w)).
Proof.
  intros Hj H. rewrite run_main_after by (intros; apply H; lia).
  rewrite run_main_running; [|exact Hj|].
  - now rewrite calls_of_after, Nat.add_0_r.
  - intros k Hk. rewrite faults_after. apply H. lia.
Qed.

Lemma nth_error_surfaces_after i w :
  nth_error (surfaces (after (S i) w)) (List.length (surfaces w) + i)
  = Some (image_of w i).
Proof.
  rewrite surfaces_after, seq_S, map_app, app_assoc. cbn [map Nat.add].
  replace (List.length (surfaces w) + i)
    with (List.length (surfaces w ++ map (image_of w) (seq 0 i)))
    by (now rewrite length_app, length_map, length_seq).
  apply nth_error_snoc.
Qed.

Lemma firstn_succ_nth A (d : A) (l : list A) : forall j,
  j < List.length l -> firstn (S j) l = (firstn j l ++ [nth j l d])%list.
Proof.
  induction l as [|x l IH]; intros j Hj; [cbn in Hj; lia|].
  destruct j as [|j]; [reflexivity|].
  cbn [firstn nth app]. rewrite <- IH by (cbn in Hj; lia). reflexivity.
Qed.

Lemma trace_logged c w : trace (logged c w) = (trace w ++ [c])%list.
Proof. reflexivity. Qed.

(** The calls of a run, whatever fails and however long it is observed. *)
Lemma run_calls_trace (P : call -> Prop) f : forall cs w,
  Forall P cs ->
  exists tr, trace (world_of (run_calls f cs w)) = (trace w ++ tr)%list /\ Forall P tr.
Proof.
  induction f as [|f IH]; intros cs w H.
  - exists []. rewrite app_nil_r. destruct cs; split; auto.
  - destruct cs as [|c cs].
    + exists []. rewrite app_nil_r. split; auto.
    + inversion H as [|? ? Hc Hcs]; subst. cbn [run_calls].
      destruct (faults w 0).
      * exists [c]. split; [reflexivity|auto].
      * destruct (IH cs (effect c w) Hcs) as (tr & Htr & HP).
        exists (c :: tr). rewrite Htr, trace_effect, <- app_assoc.
        split; [reflexivity|auto].
Qed.

Lemma run_main_trace (P : call -> Prop) :
  (forall sfc ctx text, Forall P (iteration_calls sfc ctx text)) ->
  forall f w,
  exists tr, trace (world_of (run f main w)) = (trace w ++ tr)%list /\ Forall P tr.
Proof.
  intros HP f. induction f as [f IH] using lt_wf_ind. intros w.
  unfold main. rewrite run_forever, body_calls.
  destruct (run_calls_trace f w (HP (List.length (surfaces w))
              (List.length (contexts w)) (time_str (clock w 0))))
    as (tr & Htr & Ptr).
  destruct (run_calls f _ w) as [r w' f'| |] eqn:E; cbn [world_of] in *;
    try (exists tr; split; assumption).
  destruct f' as [|f']; [exists tr; split; assumption|].
  apply run_calls_fuel_left in E.
  destruct (IH f' ltac:(lia) w') as (tr' & Htr' & Ptr').
  exists (tr ++ tr')%list. fold main. rewrite Htr', Htr, <- app_assoc.
  split; [reflexivity|]. apply Forall_app. auto.
Qed.

End Traces.

(* ===================================================================== *)
(** * The properties of the loop *)
(* ===================================================================== *)

Section Claims.

Context {backend : Backend}.

(** C1 (amended): in every iteration the blank 270x28 canvas is allocated
    first, then the drawing context is created and configured, and only
    then is the current local date-time obtained and formatted; showing
    the text, [fill], writing the file, the two prints, the flush and the
    sleep follow in this order. *)
Theorem C1_canvas_before_clock (w : World) (n : nat) :
  (forall k, k < 14 * n -> faults w k = None) ->
  exists w',
    run (15 * n) main w = Running w' /\
    trace w' = (trace w ++ script w n)%list /\
    forall i, i < n ->
      let sfc := List.length (surfaces w) + i in
      let ctx := List.length (contexts w) + i in
      let text := percent "%s" (str_datetime (clock w i)) in
      segment i (script w n) =
        [ cairo_ImageSurface ARGB32 270 28;
          cairo_Context sfc;
          Context_set_font_size ctx 16;
          Context_select_font_face ctx "Courier" FONT_SLANT_NORMAL FONT_WEIGHT_NORMAL;
          Context_move_to ctx 3 20;
          Context_set_source_rgb ctx 1.0 1.0 1.0;
          datetime_datetime_now;
          Context_show_text ctx text;
          Context_fill ctx;
          Surface_write_to_png sfc "/tmp/custom-clock.png";
          print "/tmp/custom-clock.png";
          print text;
          sys_stdout_flush;
          time_sleep 1 ] /\
      precedes is_canvas is_now (segment i (script w n)) /\
      precedes is_now is_show_text (segment i (script w n)).
Proof.
  intros H. exists (after n w). split; [apply run_main_n, H|].
  split; [apply trace_after|].
  intros i Hi sfc ctx text. rewrite segment_script by exact Hi.
  split; [reflexivity|]. split.
  - exists 0, 6. repeat split; lia.
  - exists 6, 7. repeat split; lia.
Qed.

(** C2: every iteration, after the PNG file is written, prints the path
    and then the timestamp, each on a line of its own, flushes standard
    output and then sleeps for one second. *)
Theorem C2_print_flush_sleep (w : World) (n : nat) :
  (forall k, k < 14 * n -> faults w k = None) ->
  exists w',
    run (15 * n) main w = Running w' /\
    trace w' = (trace w ++ script w n)%list /\
    (forall i, i < n ->
       skipn 9 (segment i (script w n)) =
         [ Surface_write_to_png (List.length (surfaces w) + i) "/tmp/custom-clock.png";
           print "/tmp/custom-clock.png";
           print (time_str (clock w i));
           sys_stdout_flush;
           time_sleep 1 ]) /\
    stdout w' ++ stdout_buffer w'
      = (stdout w ++ stdout_buffer w) ++ output_of w n /\
    (0 < n -> stdout_buffer w' = "") /\
    (forall i, lines (time_str (clock w i))
               = "/tmp/custom-clock.png"
                   ++ String "010" (time_str (clock w i) ++ String "010" "")) /\
    (slept w' == slept w + inject_Z (Z.of_nat n))%Q.
Proof.
  intros H. exists (after n w). split; [apply run_main_n, H|].
  split; [apply trace_after|].
  split; [intros i Hi; rewrite segment_script by exact Hi; reflexivity|].
  split; [apply stdout_after|].
  split; [apply stdout_buffer_after|].
  split; [reflexivity|apply slept_after].
Qed.

(** C3: the surface of an iteration is allocated by the iteration itself
    under a reference that did not exist before, is 270 pixels wide and 28
    high in ARGB32 with every pixel zero, and it is this surface that is
    drawn on and written. *)
Theorem C3_fresh_canvas (w : World) (i : nat) :
  (forall k, k < 14 * S i -> faults w k = None) ->
  let sfc := List.length (surfaces w) + i in
  exists w0 w1 w',
    run (15 * i) main w = Running w0 /\
    List.length (surfaces w0) = sfc /\
    run (15 * i + 1) main w = Running w1 /\
    nth_error (surfaces w1) sfc = Some canvas /\
    canvas = mk_surface ARGB32 270 28 (repeat 0%Z (Z.to_nat (270 * 28))) /\
    run (15 * S i) main w = Running w' /\
    nth_error (surfaces w') sfc = Some (image_of w i) /\
    image_of w i = rendered (environ w) sfc (time_str (clock w i)) /\
    format (image_of w i) = ARGB32 /\
    width (image_of w i) = 270%Z /\
    height (image_of w i) = 28%Z /\
    nth 0 (segment i (script w (S i))) sys_stdout_flush
      = cairo_ImageSurface ARGB32 270 28 /\
    nth 9 (segment i (script w (S i))) sys_stdout_flush
      = Surface_write_to_png sfc "/tmp/custom-clock.png" /\
    files w' "/tmp/custom-clock.png" = Some (png_encode (image_of w i)).
Proof.
  intros H sfc.
  exists (after i w), (perform_all (firstn 1 (calls_of w i)) (after i w)),
         (after (S i) w).
  split; [apply run_main_n; intros; apply H; lia|].
  split; [apply length_surfaces_after|].
  split; [apply run_main_mid; [lia|intros; apply H; lia]|].
  split.
  { replace (calls_of w i) with (calls_of (after i w) 0)
      by (now rewrite calls_of_after, Nat.add_0_r).
    rewrite surfaces_after_alloc. unfold sfc.
    rewrite <- length_surfaces_after. apply nth_error_snoc. }
  split; [reflexivity|].
  split; [apply run_main_n, H|].
  split; [apply nth_error_surfaces_after|].
  rewrite segment_script by lia.
  repeat (split; [reflexivity|]). apply files_after_S.
Qed.

(** C4: the PNG is always written to, and the first line printed is
    always, [/tmp/custom-clock.png]; no other file is touched, and after
    an iteration the file holds the image of that iteration alone. *)
Theorem C4_single_output_path (w : World) (n : nat) :
  (forall k, k < 14 * n -> faults w k = None) ->
  exists w',
    run (15 * n) main w = Running w' /\
    trace w' = (trace w ++ script w n)%list /\
    output_filename = "/tmp/custom-clock.png" /\
    written (script w n) = repeat output_filename n /\
    printed (script w n)
      = flat_map (fun i => [output_filename; time_str (clock w i)]) (seq 0 n) /\
    (forall q, q <> output_filename -> files w' q = files w q) /\
    (forall m, n = S m ->
       files w' output_filename = Some (png_encode (image_of w m))).
Proof.
  intros H. exists (after n w). split; [apply run_main_n, H|].
  split; [apply trace_after|]. split; [reflexivity|].
  split; [apply written_script|]. split; [apply printed_script|].
  split; [intros q Hq; apply files_after_other, Hq|].
  intros m ->. apply files_after_S.
Qed.

(** C5: when the text is shown the context has the font family Courier at
    size 16 with normal slant and weight, its current point is (3, 20)
    and its source is the opaque colour (1.0, 1.0, 1.0). *)
Theorem C5_context_when_text_is_shown (w : World) (i : nat) :
  (forall k, k < 14 * i + 7 -> faults w k = None) ->
  let sfc := List.length (surfaces w) + i in
  let ctx := List.length (contexts w) + i in
  exists w7 c,
    run (15 * i + 7) main w = Running w7 /\
    trace w7 = (trace w ++ script w i ++ firstn 7 (calls_of w i))%list /\
    nth 7 (calls_of w i) sys_stdout_flush
      = Context_show_text ctx (time_str (clock w i)) /\
    nth_error (contexts w7) ctx = Some c /\
    target c = sfc /\
    font_family c = "Courier" /\
    font_size c = 16%Q /\
    font_slant c = FONT_SLANT_NORMAL /\
    font_weight c = FONT_WEIGHT_NORMAL /\
    current_point c = Some (3, 20)%Q /\
    source c = (1.0, 1.0, 1.0, 1)%Q.
Proof.
  intros H sfc ctx.
  exists (perform_all (firstn 7 (calls_of w i)) (after i w)), (configured sfc).
  split; [apply run_main_mid; [lia|exact H]|].
  split; [now rewrite trace_perform_all, trace_after, app_assoc|].
  split; [reflexivity|]. split; [|repeat split].
  replace (calls_of w i) with (calls_of (after i w) 0)
    by (now rewrite calls_of_after, Nat.add_0_r).
  unfold ctx, sfc.
  rewrite <- length_contexts_after, <- length_surfaces_after.
  apply context_before_text.
Qed.

(** C6: unless a call fails, the loop never ends: however long the run is
    observed it is still running, and every number of iterations is
    reached. *)
Theorem C6_loop_never_exits (w : World) :
  (forall k, faults w k = None) ->
  (forall fuel, exists w', run fuel main w = Running w') /\
  (forall n, exists fuel w',
     run fuel main w = Running w' /\
     count is_canvas (trace w') = count is_canvas (trace w) + n /\
     count is_sleep (trace w') = count is_sleep (trace w) + n).
Proof.
  intros H. split.
  - intros fuel.
    rewrite (Nat.div_mod fuel 15) by lia.
    assert (Hj := Nat.mod_upper_bound fuel 15 ltac:(lia)).
    destruct (Nat.eq_dec (fuel mod 15) 14) as [E|E].
    + rewrite E, run_main_after by (intros; apply H).
      rewrite run_main_14 by (intros; rewrite faults_after; apply H). eauto.
    + rewrite run_main_mid by (try lia; intros; apply H). eauto.
  - intros n. exists (15 * n), (after n w).
    split; [apply run_main_n; intros; apply H|].
    rewrite trace_after, !count_app, !count_script_one by reflexivity. auto.
Qed.

(** C7: the first call that fails ends the run with its exception: it is
    the last call made, nothing is retried, and observing the run for
    longer changes nothing. *)
Theorem C7_first_fault_ends_the_run (w : World) (k : nat) (e : exn) :
  (forall i, i < k -> faults w i = None) ->
  faults w k = Some e ->
  exists w',
    (forall fuel, k + k / 14 < fuel -> run fuel main w = Raised e w') /\
    trace w' = (trace w ++ firstn (S k) (script w (S (k / 14))))%list /\
    count is_canvas (trace w') = count is_canvas (trace w) + S (k / 14).
Proof.
  intros H He.
  set (n := k / 14). set (j := k mod 14).
  assert (Hk : k = 14 * n + j) by (apply Nat.div_mod; lia).
  assert (Hj : j < 14) by (apply Nat.mod_upper_bound; lia).
  set (cs := calls_of (after n w) 0).
  assert (Hcs : cs = calls_of w n) by (unfold cs; now rewrite calls_of_after, Nat.add_0_r).
  exists (logged (nth j cs sys_stdout_flush) (perform_all (firstn j cs) (after n w))).
  assert (Htr : trace (logged (nth j cs sys_stdout_flush)
                         (perform_all (firstn j cs) (after n w)))
                = (trace w ++ firstn (S k) (script w (S n)))%list).
  { rewrite trace_logged, trace_perform_all, trace_after, script_snoc.
    rewrite firstn_app, length_script.
    rewrite (@firstn_all2 _ (S k) (script w n)) by (rewrite length_script; lia).
    replace (S k - 14 * n) with (S j) by lia.
    rewrite (firstn_succ_nth sys_stdout_flush) by (rewrite length_calls_of; exact Hj).
    rewrite <- Hcs, <- !app_assoc. reflexivity. }
  split; [|split; [exact Htr|]].
  - intros fuel Hf.
    replace fuel with (15 * n + (S j + (fuel - (15 * n + S j)))) by lia.
    rewrite run_main_after by (intros; apply H; lia).
    apply run_main_raised; [exact Hj| |].
    + intros i Hi. rewrite faults_after. apply H. lia.
    + rewrite faults_after, <- Hk. exact He.
  - rewrite trace_logged, trace_perform_all, trace_after, !count_app.
    rewrite count_script_one by reflexivity.
    assert (G : count is_canvas (firstn j cs ++ [nth j cs sys_stdout_flush]) = 1).
    { rewrite <- (firstn_succ_nth sys_stdout_flush)
        by (rewrite Hcs, length_calls_of; exact Hj).
      rewrite Hcs. clear -Hj.
      do 14 (destruct j as [|j]; [reflexivity|]). lia. }
    rewrite count_app in G. lia.
Qed.

(** C8 (amended): the script itself consults neither the command line nor
    the environment: no call of a run reads them, and the course of the
    run (the calls made and their arguments, the text written to standard
    output before the runtime encodes it, the status of the process) is
    the same whatever they are.  The image written is the same as well
    when the drawing library renders text alike under the two
    environments; the library may consult the environment on its own. *)
Theorem C8_arguments_not_consulted (fuel : nat) (w : World)
    (a : list string) (e : string -> option string) :
  let o := run fuel main w in
  let o' := run fuel main (set_args a e w) in
  status o' = status o /\
  trace (world_of o') = trace (world_of o) /\
  stdout (world_of o') = stdout (world_of o) /\
  stdout_buffer (world_of o') = stdout_buffer (world_of o) /\
  (exists tr, trace (world_of o) = (trace w ++ tr)%list /\
              Forall (fun c => reads_args c = false) tr) /\
  (renders_alike e (environ w) -> files (world_of o') = files (world_of o)).
Proof.
  cbn zeta.
  assert (C : same_course (set_args a e w) w) by (repeat split; reflexivity).
  destruct (same_outcome_observed _ _ (run_main_course fuel C)) as (S & T & O & B).
  repeat (split; [assumption|]).
  split; [apply run_main_trace, script_reads_no_args|].
  intros A. rewrite run_main_set_args by exact A.
  destruct (run fuel main w); reflexivity.
Qed.

(** C9: each iteration reads the clock exactly once, and the text it
    shows on the canvas is the string it prints as its second line. *)
Theorem C9_one_reading_per_iteration (w : World) (n : nat) :
  (forall k, k < 14 * n -> faults w k = None) ->
  exists w',
    run (15 * n) main w = Running w' /\
    trace w' = (trace w ++ script w n)%list /\
    count is_now (script w n) = n /\
    (forall i, clock w' i = clock w (n + i)) /\
    forall i, i < n ->
      let text := percent "%s" (str_datetime (clock w i)) in
      count is_now (segment i (script w n)) = 1 /\
      shown (segment i (script w n)) = [text] /\
      printed (segment i (script w n)) = ["/tmp/custom-clock.png"; text].
Proof.
  intros H. exists (after n w). split; [apply run_main_n, H|].
  split; [apply trace_after|].
  split; [apply count_script_one; reflexivity|].
  split; [intros i; apply clock_after|].
  intros i Hi text. rewrite segment_script by exact Hi.
  repeat split; reflexivity.
Qed.

(** C10: the text of an iteration is [str] of the date-time read, that is
    [YYYY-MM-DD HH:MM:SS.ffffff], without the microseconds when they are
    zero. *)
Theorem C10_timestamp_text (d : datetime) :
  valid_datetime d ->
  percent "%s" (str_datetime d) = timestamp_format d /\
  String.length (percent "%s" (str_datetime d))
    = (if (microsecond d =? 0)%Z then 19 else 26).
Proof.
  intros H. change (percent "%s" (str_datetime d)) with (time_str d).
  rewrite time_str_format by exact H.
  split; [reflexivity|apply length_timestamp_format].
Qed.

End Claims.

(* ===================================================================== *)
(** * Further properties of the loop *)
(* ===================================================================== *)

Section Progress.

Context {backend : Backend}.

Lemma length_iteration_calls sfc ctx text :
  List.length (iteration_calls sfc ctx text) = 14.
Proof. reflexivity. Qed.

(** ** Where an exception comes from *)

Lemma run_calls_raised_inv f : forall cs w e w',
  run_calls f cs w = Raised e w' ->
  exists k, k < List.length cs /\ k < f /\
            (forall i, i < k -> faults w i = None) /\ faults w k = Some e.
Proof.
  induction f as [|f IH]; intros cs w e w' H.
  - destruct cs; discriminate.
  - destruct cs as [|c cs]; [discriminate|]. cbn [run_calls] in H.
    destruct (faults w 0) as [e0|] eqn:F.
    + injection H as <- _. exists 0. cbn. repeat split; try lia. exact F.
    + apply IH in H. destruct H as (k & Hk & Hf & Hnone & He).
      exists (S k). cbn. repeat split; try lia.
      * intros [|i] Hi; [exact F|]. rewrite <- faults_effect with (c := c).
        apply Hnone. lia.
      * now rewrite <- faults_effect with (c := c).
Qed.

Lemma run_calls_returned_inv f : forall cs w r w' f',
  run_calls f cs w = Returned r w' f' ->
  w' = perform_all cs w /\ f = List.length cs + f' /\
  (forall i, i < List.length cs -> faults w i = None).
Proof.
  induction f as [|f IH]; intros cs w r w' f' H.
  - destruct cs; [|discriminate]. injection H as _ <- <-.
    repeat split. intros i Hi. cbn in Hi. lia.
  - destruct cs as [|c cs].
    + injection H as _ <- <-. repeat split. intros i Hi. cbn in Hi. lia.
    + cbn [run_calls] in H. destruct (faults w 0) eqn:F; [discriminate|].
      apply IH in H. destruct H as (-> & -> & Hnone).
      repeat split. intros [|i] Hi; [exact F|].
      rewrite <- faults_effect with (c := c). apply Hnone. cbn in Hi. lia.
Qed.

(** X1: the script never raises on its own (its references are live, the
    size of the canvas is valid, the sleep is not negative): an exception
    that ends a run is the first fault of the outside, and the run is long
    enough to reach the call it hits. *)
Theorem X1_exceptions_come_from_outside (fuel : nat) (w : World) (e : exn) :
  status (run fuel main w) = Some (Some e) ->
  exists k,
    (forall i, i < k -> faults w i = None) /\
    faults w k = Some e /\
    k + k / 14 < fuel.
Proof.
  revert w. induction fuel as [fuel IH] using lt_wf_ind. intros w.
  unfold main. rewrite run_forever, body_calls. fold main.
  destruct (run_calls fuel _ w) as [r w1 f1|e1 w1|w1] eqn:E; cbn [status].
  - apply run_calls_returned_inv in E. destruct E as (-> & Hf & Hnone).
    rewrite length_iteration_calls in *.
    destruct f1 as [|f2]; [discriminate|]. intros H.
    apply IH in H; [|lia]. destruct H as (k & Hk & He & Hlt).
    exists (14 + k). split; [|split].
    + intros i Hi. destruct (Nat.lt_ge_cases i 14) as [L|G]; [apply Hnone, L|].
      specialize (Hk (i - 14) ltac:(lia)).
      rewrite faults_perform_all, length_iteration_calls in Hk.
      replace (14 + (i - 14)) with i in Hk by lia. exact Hk.
    + now rewrite faults_perform_all, length_iteration_calls in He.
    + assert ((14 + k) / 14 = 1 + k / 14)
        by (rewrite <- (Nat.div_add_l 1 14 k) by lia; reflexivity).
      lia.
  - intros H. injection H as ->.
    apply run_calls_raised_inv in E. destruct E as (k & Hk & Hf & Hnone & He).
    rewrite length_iteration_calls in Hk.
    exists k. rewrite (Nat.div_small k 14) by exact Hk. repeat split; auto. lia.
  - discriminate.
Qed.

(** ** The calls made so far *)

(** X2: at every point of a run in which nothing has failed, the calls
    made so far are an initial segment of the script: the iterations do
    not overlap, and a call is made at every step but the one silent step
    between two iterations. *)
Theorem X2_trace_is_a_prefix_of_the_script (fuel : nat) (w : World) :
  (forall k, k < fuel -> faults w k = None) ->
  exists w',
    run fuel main w = Running w' /\
    trace w' = (trace w ++ firstn (fuel - fuel / 15) (script w (S (fuel / 15))))%list.
Proof.
  intros H.
  set (i := fuel / 15). set (j := fuel mod 15).
  assert (Hf : fuel = 15 * i + j) by (apply Nat.div_mod; lia).
  assert (Hj : j < 15) by (apply Nat.mod_upper_bound; lia).
  replace (fuel - i) with (14 * i + j) by lia.
  rewrite script_snoc, firstn_app, length_script.
  rewrite (@firstn_all2 _ (14 * i + j) (script w i)) by (rewrite length_script; lia).
  replace (14 * i + j - 14 * i) with j by lia.
  rewrite Hf.
  destruct (Nat.eq_dec j 14) as [E|E].
  - exists (iteration (after i w)). split.
    + rewrite E, run_main_after by (intros; apply H; lia).
      apply run_main_14. intros k Hk. rewrite faults_after. apply H. lia.
    + cbn [iteration trace]. rewrite trace_after, <- calls_of_0, calls_of_after.
      rewrite Nat.add_0_r, E, <- app_assoc. reflexivity.
  - exists (perform_all (firstn j (calls_of w i)) (after i w)). split.
    + apply run_main_mid; [lia|]. intros k Hk. apply H. lia.
    + now rewrite trace_perform_all, trace_after, <- app_assoc.
Qed.

End Progress.

Section Store.

Context {backend : Backend}.

(** ** The file and the store during an iteration *)

Lemma image_of_after n : forall w i, image_of (after n w) i = image_of w (n + i).
Proof.
  induction n as [|n IH]; intros w i; [reflexivity|].
  cbn [after]. rewrite IH, image_of_iteration. f_equal; lia.
Qed.




Ltac effect_step :=
  rewrite perform_all_cons; unfold effect;
  repeat (progress (cbn -[percent str_datetime blank perform_all effect];
                    unfold on_context, draw;
                    cbn -[percent str_datetime blank perform_all effect];
                    rewrite ?nth_error_snoc, ?update_snoc)).

(** After the first ten calls of an iteration the file holds its image. *)
Lemma file_after_write w :
  files (perform_all (firstn 10 (calls_of w 0)) w) output_filename
  = Some (png_encode (image_of w 0)).
Proof.
  rewrite calls_of_0, image_of_0. unfold iteration_calls, time_str, output_filename.
  cbn [firstn].
  do 10 effect_step. unfold perform_all. cbn [fold_left].
  cbn -[percent str_datetime blank]. reflexivity.
Qed.



Lemma printed_app l1 l2 : printed (l1 ++ l2) = (printed l1 ++ printed l2)%list.
Proof. apply flat_map_app. Qed.

(** X3: when the path is printed the file already holds the image of the
    running iteration, and the text of that image is the line printed
    next; no line of the iteration has been printed before. *)
Theorem X3_file_written_before_path_printed (w : World) (i : nat) :
  (forall k, k < 14 * i + 10 -> faults w k = None) ->
  exists w10,
    run (15 * i + 10) main w = Running w10 /\
    files w10 "/tmp/custom-clock.png" = Some (png_encode (image_of w i)) /\
    image_of w i
      = rendered (environ w) (List.length (surfaces w) + i)
                 (time_str (clock w i)) /\
    printed (trace w10) = (printed (trace w) ++ printed (script w i))%list /\
    nth 10 (calls_of w i) sys_stdout_flush = print "/tmp/custom-clock.png" /\
    nth 11 (calls_of w i) sys_stdout_flush = print (time_str (clock w i)).
Proof.
  intros H.
  exists (perform_all (firstn 10 (calls_of w i)) (after i w)).
  split; [apply run_main_mid; [lia|exact H]|].
  split.
  { replace (calls_of w i) with (calls_of (after i w) 0)
      by (now rewrite calls_of_after, Nat.add_0_r).
    change "/tmp/custom-clock.png" with output_filename.
    rewrite file_after_write, image_of_after, Nat.add_0_r. reflexivity. }
  split; [reflexivity|].
  split; [|split; reflexivity].
  rewrite trace_perform_all, trace_after, !printed_app.
  change (printed (firstn 10 (calls_of w i))) with (@nil string).
  now rewrite app_nil_r.
Qed.




End Store.

(** ** Lines and texts *)

Lemma newlines_app a b : newlines (a ++ b) = newlines a + newlines b.
Proof. induction a as [|c a IH]; cbn [append newlines]; [reflexivity|]. rewrite IH. lia. Qed.

Lemma newlines_digits k : forall n, newlines (digits k n) = 0.
Proof.
  induction k as [|k IH]; intros n; [reflexivity|].
  cbn [digits]. rewrite newlines_app, IH. unfold digit_char.
  assert (B : (0 <= n mod 10 < 10)%Z) by (apply Z.mod_pos_bound; lia).
  assert (M : Z.to_nat (n mod 10) < 10) by lia.
  destruct (Z.to_nat (n mod 10)) as [|m]; [reflexivity|].
  do 9 (destruct m as [|m]; [reflexivity|]). lia.
Qed.

Lemma newlines_timestamp_format d : newlines (timestamp_format d) = 0.
Proof.
  unfold timestamp_format.
  destruct (microsecond d =? 0)%Z;
    repeat rewrite newlines_app; repeat rewrite newlines_digits; reflexivity.
Qed.

Lemma newlines_lines d : valid_datetime d -> newlines (lines (time_str d)) = 2.
Proof.
  intros H. unfold lines. rewrite time_str_format by exact H.
  repeat rewrite newlines_app. rewrite newlines_timestamp_format. reflexivity.
Qed.

Lemma newlines_output w n :
  (forall i, i < n -> valid_datetime (clock w i)) ->
  newlines (output_of w n) = 2 * n.
Proof.
  intros H. unfold output_of.
  assert (G : forall l, (forall i, In i l -> valid_datetime (clock w i)) ->
              newlines (fold_right append ""
                          (map (fun i => lines (time_str (clock w i))) l))
              = 2 * List.length l).
  { induction l as [|i l IH]; intros V; [reflexivity|].
    cbn [map fold_right List.length]. rewrite newlines_app, newlines_lines, IH.
    - lia.
    - intros i' Hi'. apply V. now right.
    - apply V. now left. }
  rewrite G, length_seq; [reflexivity|].
  intros i Hi. apply in_seq in Hi. apply H. lia.
Qed.

Section Output.

Context {backend : Backend}.

(** X5: what [n] iterations deliver to standard output is exactly [2 * n]
    lines: neither the path nor the text of a date-time holds a newline,
    and each [print] ends its string with one. *)
Theorem X5_two_lines_per_iteration (w : World) (n : nat) :
  0 < n ->
  (forall k, k < 14 * n -> faults w k = None) ->
  (forall i, i < n -> valid_datetime (clock w i)) ->
  exists w',
    run (15 * n) main w = Running w' /\
    stdout w' = (stdout w ++ stdout_buffer w) ++ output_of w n /\
    newlines (output_of w n) = 2 * n.
Proof.
  intros Hn H V. exists (after n w). split; [apply run_main_n, H|].
  split; [|apply newlines_output, V].
  rewrite <- stdout_after, stdout_buffer_after by exact Hn.
  now rewrite append_nil_r.
Qed.

End Output.

(* ===================================================================== *)
(** * The properties at the sample worlds *)
(* ===================================================================== *)

#[local] Existing Instance sample_backend.

(** In the first iteration of the sample run the canvas is allocated at
    call 0 and the clock is read at call 6: the clock is not read before
    the canvas is allocated. *)
Lemma C1_counterexample :
  ~ precedes is_now is_canvas
      (trace (world_of (run (backend := sample_backend) 15 main sample_world))).
Proof.
  intros (i & j & Hi & Hj & Hlt).
  vm_compute in Hi. vm_compute in Hj.
  injection Hi as <-. injection Hj as <-. lia.
Qed.

Lemma C1_witness :
  (forall k, k < 14 * 2 -> faults sample_world k = None) /\
  exists w',
    run (backend := sample_backend) (15 * 2) main sample_world = Running w' /\
    trace w' = (trace sample_world ++ script sample_world 2)%list /\
    forall i, i < 2 ->
      let sfc := List.length (surfaces sample_world) + i in
      let ctx := List.length (contexts sample_world) + i in
      let text := percent "%s" (str_datetime (clock sample_world i)) in
      segment i (script sample_world 2) =
        [ cairo_ImageSurface ARGB32 270 28;
          cairo_Context sfc;
          Context_set_font_size ctx 16;
          Context_select_font_face ctx "Courier" FONT_SLANT_NORMAL FONT_WEIGHT_NORMAL;
          Context_move_to ctx 3 20;
          Context_set_source_rgb ctx 1.0 1.0 1.0;
          datetime_datetime_now;
          Context_show_text ctx text;
          Context_fill ctx;
          Surface_write_to_png sfc "/tmp/custom-clock.png";
          print "/tmp/custom-clock.png";
          print text;
          sys_stdout_flush;
          time_sleep 1 ] /\
      precedes is_canvas is_now (segment i (script sample_world 2)) /\
      precedes is_now is_show_text (segment i (script sample_world 2)).
Proof.
  split; [intros k _; reflexivity|].
  apply (@C1_canvas_before_clock sample_backend sample_world 2).
  intros k _. reflexivity.
Defined.

Lemma C2_witness :
  (forall k, k < 14 * 2 -> faults sample_world k = None) /\
  exists w',
    run (backend := sample_backend) (15 * 2) main sample_world = Running w' /\
    trace w' = (trace sample_world ++ script sample_world 2)%list /\
    (forall i, i < 2 ->
       skipn 9 (segment i (script sample_world 2)) =
         [ Surface_write_to_png (List.length (surfaces sample_world) + i)
             "/tmp/custom-clock.png";
           print "/tmp/custom-clock.png";
           print (time_str (clock sample_world i));
           sys_stdout_flush;
           time_sleep 1 ]) /\
    stdout w' ++ stdout_buffer w'
      = (stdout sample_world ++ stdout_buffer sample_world)
          ++ output_of sample_world 2 /\
    (0 < 2 -> stdout_buffer w' = "") /\
    (forall i, lines (time_str (clock sample_world i))
               = "/tmp/custom-clock.png"
                   ++ String "010" (time_str (clock sample_world i) ++ String "010" "")) /\
    (slept w' == slept sample_world + inject_Z (Z.of_nat 2))%Q.
Proof.
  split; [intros k _; reflexivity|].
  apply (@C2_print_flush_sleep sample_backend sample_world 2).
  intros k _. reflexivity.
Defined.

Lemma C3_witness :
  (forall k, k < 14 * 2 -> faults sample_world k = None) /\
  exists w0 w1 w',
    run (backend := sample_backend) (15 * 1) main sample_world = Running w0 /\
    List.length (surfaces w0) = 1 /\
    run (backend := sample_backend) (15 * 1 + 1) main sample_world = Running w1 /\
    nth_error (surfaces w1) 1 = Some canvas /\
    canvas = mk_surface ARGB32 270 28 (repeat 0%Z (Z.to_nat (270 * 28))) /\
    run (backend := sample_backend) (15 * 2) main sample_world = Running w' /\
    nth_error (surfaces w') 1 = Some (image_of (backend := sample_backend) sample_world 1) /\
    image_of (backend := sample_backend) sample_world 1
      = rendered (backend := sample_backend) (environ sample_world) 1
                 (time_str (clock sample_world 1)) /\
    format (image_of (backend := sample_backend) sample_world 1) = ARGB32 /\
    width (image_of (backend := sample_backend) sample_world 1) = 270%Z /\
    height (image_of (backend := sample_backend) sample_world 1) = 28%Z /\
    nth 0 (segment 1 (script sample_world 2)) sys_stdout_flush
      = cairo_ImageSurface ARGB32 270 28 /\
    nth 9 (segment 1 (script sample_world 2)) sys_stdout_flush
      = Surface_write_to_png 1 "/tmp/custom-clock.png" /\
    files w' "/tmp/custom-clock.png"
      = Some (png_encode (image_of (backend := sample_backend) sample_world 1)).
Proof.
  split; [intros k _; reflexivity|].
  apply (@C3_fresh_canvas sample_backend sample_world 1).
  intros k _. reflexivity.
Defined.

Lemma C4_witness :
  (forall k, k < 14 * 2 -> faults sample_world k = None) /\
  exists w',
    run (backend := sample_backend) (15 * 2) main sample_world = Running w' /\
    trace w' = (trace sample_world ++ script sample_world 2)%list /\
    output_filename = "/tmp/custom-clock.png" /\
    written (script sample_world 2) = repeat output_filename 2 /\
    printed (script sample_world 2)
      = flat_map (fun i => [output_filename; time_str (clock sample_world i)])
                 (seq 0 2) /\
    (forall q, q <> output_filename -> files w' q = files sample_world q) /\
    (forall m, 2 = S m ->
       files w' output_filename
       = Some (png_encode (image_of (backend := sample_backend) sample_world m))).
Proof.
  split; [intros k _; reflexivity|].
  apply (@C4_single_output_path sample_backend sample_world 2).
  intros k _. reflexivity.
Defined.

Lemma C5_witness :
  (forall k, k < 14 * 1 + 7 -> faults sample_world k = None) /\
  exists w7 c,
    run (backend := sample_backend) (15 * 1 + 7) main sample_world = Running w7 /\
    trace w7 = (trace sample_world ++ script sample_world 1
                  ++ firstn 7 (calls_of sample_world 1))%list /\
    nth 7 (calls_of sample_world 1) sys_stdout_flush
      = Context_show_text 1 (time_str (clock sample_world 1)) /\
    nth_error (contexts w7) 1 = Some c /\
    target c = 1 /\
    font_family c = "Courier" /\
    font_size c = 16%Q /\
    font_slant c = FONT_SLANT_NORMAL /\
    font_weight c = FONT_WEIGHT_NORMAL /\
    current_point c = Some (3, 20)%Q /\
    source c = (1.0, 1.0, 1.0, 1)%Q.
Proof.
  split; [intros k _; reflexivity|].
  apply (@C5_context_when_text_is_shown sample_backend sample_world 1).
  intros k _. reflexivity.
Defined.

Lemma C6_witness :
  (forall k, faults sample_world k = None) /\
  (forall fuel, exists w',
     run (backend := sample_backend) fuel main sample_world = Running w') /\
  (forall n, exists fuel w',
     run (backend := sample_backend) fuel main sample_world = Running w' /\
     count is_canvas (trace w') = count is_canvas (trace sample_world) + n /\
     count is_sleep (trace w') = count is_sleep (trace sample_world) + n).
Proof.
  split; [intros k; reflexivity|].
  apply (@C6_loop_never_exits sample_backend sample_world).
  intros k. reflexivity.
Defined.

Lemma C7_witness :
  (forall i, i < 23 -> faults faulty_world i = None) /\
  faults faulty_world 23 = Some (OSError 28) /\
  exists w',
    (forall fuel, 23 + 23 / 14 < fuel ->
       run (backend := sample_backend) fuel main faulty_world
       = Raised (OSError 28) w') /\
    trace w' = (trace faulty_world
                  ++ firstn (S 23) (script faulty_world (S (23 / 14))))%list /\
    count is_canvas (trace w') = count is_canvas (trace faulty_world) + S (23 / 14).
Proof.
  assert (H : forall i, i < 23 -> faults faulty_world i = None).
  { intros i Hi. cbn. destruct (Nat.eqb_spec i 23); [lia|reflexivity]. }
  split; [exact H|]. split; [reflexivity|].
  apply (@C7_first_fault_ends_the_run sample_backend faulty_world 23);
    [exact H|reflexivity].
Defined.

(** With a library that resolves its fonts through the environment, two
    runs with the same clock but another [FONTCONFIG_FILE] write
    different images. *)
Lemma C8_counterexample :
  clock other_fonts_world = clock sample_world /\
  faults other_fonts_world = faults sample_world /\
  files (world_of (run (backend := fontconfig_backend) 15 main other_fonts_world))
        "/tmp/custom-clock.png"
  <> files (world_of (run (backend := fontconfig_backend) 15 main sample_world))
           "/tmp/custom-clock.png".
Proof.
  split; [reflexivity|]. split; [reflexivity|].
  vm_compute. intros H. discriminate H.
Qed.

Lemma C8_witness :
  renders_alike (environ other_fonts_world) (environ sample_world) /\
  status (run 30 main other_fonts_world) = status (run 30 main sample_world) /\
  trace (world_of (run 30 main other_fonts_world))
    = trace (world_of (run 30 main sample_world)) /\
  stdout (world_of (run 30 main other_fonts_world))
    = stdout (world_of (run 30 main sample_world)) /\
  stdout_buffer (world_of (run 30 main other_fonts_world))
    = stdout_buffer (world_of (run 30 main sample_world)) /\
  (exists tr, trace (world_of (run 30 main sample_world))
              = (trace sample_world ++ tr)%list /\
              Forall (fun c => reads_args c = false) tr) /\
  files (world_of (run 30 main other_fonts_world))
    = files (world_of (run 30 main sample_world)).
Proof.
  assert (A : renders_alike (environ other_fonts_world) (environ sample_world))
    by (split; reflexivity).
  split; [exact A|].
  destruct (@C8_arguments_not_consulted sample_backend 30 sample_world
              (argv sample_world) (environ other_fonts_world))
    as (S & T & O & B & N & F).
  repeat (split; [assumption|]). exact (F A).
Defined.

Lemma C9_witness :
  (forall k, k < 14 * 2 -> faults sample_world k = None) /\
  exists w',
    run (backend := sample_backend) (15 * 2) main sample_world = Running w' /\
    trace w' = (trace sample_world ++ script sample_world 2)%list /\
    count is_now (script sample_world 2) = 2 /\
    (forall i, clock w' i = clock sample_world (2 + i)) /\
    forall i, i < 2 ->
      let text := percent "%s" (str_datetime (clock sample_world i)) in
      count is_now (segment i (script sample_world 2)) = 1 /\
      shown (segment i (script sample_world 2)) = [text] /\
      printed (segment i (script sample_world 2)) = ["/tmp/custom-clock.png"; text].
Proof.
  split; [intros k _; reflexivity|].
  apply (@C9_one_reading_per_iteration sample_backend sample_world 2).
  intros k _. reflexivity.
Defined.

Lemma C10_witness :
  valid_datetime (sample_clock 1) /\
  percent "%s" (str_datetime (sample_clock 1)) = timestamp_format (sample_clock 1) /\
  String.length (percent "%s" (str_datetime (sample_clock 1)))
    = (if (microsecond (sample_clock 1) =? 0)%Z then 19 else 26).
Proof.
  assert (H : valid_datetime (sample_clock 1)) by (unfold valid_datetime; cbn; lia).
  split; [exact H|]. apply (@C10_timestamp_text (sample_clock 1) H).
Defined.

Lemma X1_witness :
  status (run 30 main faulty_world) = Some (Some (OSError 28)) /\
  exists k,
    (forall i, i < k -> faults faulty_world i = None) /\
    faults faulty_world k = Some (OSError 28) /\
    k + k / 14 < 30.
Proof.
  assert (H : status (run 30 main faulty_world) = Some (Some (OSError 28)))
    by reflexivity.
  split; [exact H|].
  apply (@X1_exceptions_come_from_outside sample_backend 30 faulty_world _ H).
Defined.

Lemma X2_witness :
  (forall k, k < 22 -> faults sample_world k = None) /\
  exists w',
    run 22 main sample_world = Running w' /\
    trace w' = (trace sample_world
                  ++ firstn (22 - 22 / 15) (script sample_world (S (22 / 15))))%list.
Proof.
  split; [intros k _; reflexivity|].
  apply (@X2_trace_is_a_prefix_of_the_script sample_backend 22 sample_world).
  intros k _. reflexivity.
Defined.

Lemma X3_witness :
  (forall k, k < 14 * 1 + 10 -> faults sample_world k = None) /\
  exists w10,
    run (15 * 1 + 10) main sample_world = Running w10 /\
    files w10 "/tmp/custom-clock.png" = Some (png_encode (image_of sample_world 1)) /\
    image_of sample_world 1
      = rendered (environ sample_world) (List.length (surfaces sample_world) + 1)
                 (time_str (clock sample_world 1)) /\
    printed (trace w10)
      = (printed (trace sample_world) ++ printed (script sample_world 1))%list /\
    nth 10 (calls_of sample_world 1) sys_stdout_flush = print "/tmp/custom-clock.png" /\
    nth 11 (calls_of sample_world 1) sys_stdout_flush
      = print (time_str (clock sample_world 1)).
Proof.
  split; [intros k _; reflexivity|].
  apply (@X3_file_written_before_path_printed sample_backend sample_world 1).
  intros k _. reflexivity.
Defined.

Lemma X5_witness :
  0 < 2 /\
  (forall k, k < 14 * 2 -> faults sample_world k = None) /\
  (forall i, i < 2 -> valid_datetime (clock sample_world i)) /\
  exists w',
    run (15 * 2) main sample_world = Running w' /\
    stdout w' = (stdout sample_world ++ stdout_buffer sample_world)
                  ++ output_of sample_world 2 /\
    newlines (output_of sample_world 2) = 2 * 2.
Proof.
  assert (V : forall i, i < 2 -> valid_datetime (clock sample_world i)).
  { intros [|[|i]] Hi; [unfold valid_datetime; cbn; lia..|lia]. }
  split; [lia|]. split; [intros k _; reflexivity|]. split; [exact V|].
  apply (@X5_two_lines_per_iteration sample_backend sample_world 2);
    [lia|intros k _; reflexivity|exact V].
Defined.

